(** * The MCP process supervisor ([mcp_server_manager.py])

    A shallow embedding of the supervisor script: the registry file
    [running_processes.json], the launcher ([start_server]), the stop protocol
    ([stop_server]), the two listings and the stale-entry cleaner, followed by
    the properties of the specification that concern them.

    The script is sequential Python that talks to the operating system.  It is
    embedded in a state-and-exception monad over a [world] made of the content
    of the registry file and the chronological trace of every interaction with
    the operating system (path probes, spawns, signals, sleeps, writes of the
    registry file, printed lines).  What the operating system answers is given
    by an environment [os_env]; the answers about processes may depend on the
    whole history, so that a process can die between two signals.

    [find_process_by_name] is called by no command and is left out. *)

From Stdlib Require Import String Ascii List ZArith Arith Bool Lia DecimalString.
From Stdlib Require Import Sorting Permutation.
Import ListNotations.
Local Open Scope string_scope.
Local Open Scope list_scope.

(** ** Python strings and paths *)

Module PyStr.

(** [str(n)] for an [int]. *)
Definition of_Z (z : Z) : string := NilZero.string_of_int (Z.to_int z).

(** [str(len(x))]. *)
Definition of_nat (n : nat) : string := NilZero.string_of_uint (Nat.to_uint n).

Definition lower_ascii (c : ascii) : ascii :=
  let n := nat_of_ascii c in
  if ((65 <=? n) && (n <=? 90))%nat then ascii_of_nat (n + 32) else c.

(** [s.lower()], on the ASCII letters. *)
Fixpoint lower (s : string) : string :=
  match s with
  | EmptyString => EmptyString
  | String c r => String (lower_ascii c) (lower r)
  end.

(** [sub in s]. *)
Definition contains (sub s : string) : bool :=
  match String.index 0 sub s with Some _ => true | None => false end.

Fixpoint endswith_sep (s : string) : bool :=
  match s with
  | EmptyString => false
  | String c EmptyString => Ascii.eqb c "/"
  | String _ r => endswith_sep r
  end.

(** [os.path.join(a, b)] of [posixpath]. *)
Definition path_join (a b : string) : string :=
  if String.prefix "/" b then b
  else if (a =? "") || endswith_sep a then a ++ b
  else a ++ "/" ++ b.

(** The line feed of ["\n"]. *)
Definition nl : string := String (ascii_of_nat 10) EmptyString.

Fixpoint insert_sorted (s : string) (l : list string) : list string :=
  match l with
  | [] => [s]
  | x :: r => if String.leb s x then s :: l else x :: insert_sorted s r
  end.

(** [sorted(l)] for a list of strings. *)
Definition sorted (l : list string) : list string :=
  fold_right insert_sorted [] l.

End PyStr.

(** ** The registry: an insertion-ordered [dict] from server name to entry *)

Record entry := { pid : Z; started_at : string }.

Definition dict := list (string * entry).

Module Dict.

Fixpoint get (k : string) (d : dict) : option entry :=
  match d with
  | [] => None
  | (k', v) :: r => if k' =? k then Some v else get k r
  end.

(** [k in d]. *)
Definition mem (k : string) (d : dict) : bool :=
  match get k d with Some _ => true | None => false end.

(** [d[k] = v]: an existing key keeps its place, a new one goes last. *)
Fixpoint set (k : string) (v : entry) (d : dict) : dict :=
  match d with
  | [] => [(k, v)]
  | (k', v') :: r => if k' =? k then (k, v) :: r else (k', v') :: set k v r
  end.

(** [del d[k]], guarded by [k in d] at its only use. *)
Definition del (k : string) (d : dict) : dict :=
  filter (fun kv => negb (fst kv =? k)) d.

Definition keys (d : dict) : list string := map fst d.

Fixpoint insert_item (kv : string * entry) (l : dict) : dict :=
  match l with
  | [] => [kv]
  | x :: r => if String.leb (fst kv) (fst x) then kv :: l else x :: insert_item kv r
  end.

(** [sorted(d.items())]: the keys of a dict are distinct, so the order is
    the order of the keys. *)
Definition sorted_items (d : dict) : dict := fold_right insert_item [] d.

(** The keys of a Python dict are pairwise distinct. *)
Definition wf (d : dict) : Prop := NoDup (keys d).

End Dict.

(** The registry file as the script can find it. *)
Inductive registry_file :=
| Missing                 (* os.path.exists(processes_file) is False *)
| Corrupt                 (* json.load raises JSONDecodeError *)
| Parsed (d : dict).      (* json.load returns d *)

(** [read_all] of the specification: a missing or corrupt file is empty. *)
Definition entries_of (f : registry_file) : dict :=
  match f with Parsed d => d | _ => [] end.

(** ** Exceptions, signals, events *)

Inductive exn :=
| ProcessLookupError (msg : string)   (* ESRCH; a subclass of OSError *)
| OSError (msg : string)              (* every other OSError: PermissionError, FileNotFoundError, ... *)
| JSONDecodeError (msg : string)
| PyException (msg : string).         (* every other Exception *)

Definition exn_msg (e : exn) : string :=
  match e with
  | ProcessLookupError m | OSError m | JSONDecodeError m | PyException m => m
  end.

(** What [except OSError] catches. *)
Definition is_OSError (e : exn) : bool :=
  match e with ProcessLookupError _ | OSError _ => true | _ => false end.

Inductive signal := SIGTERM | SIGKILL | SIG0.

Inductive outcome (A : Type) :=
| Ret (a : A)
| Raise (e : exn).
Arguments Ret {A} a.
Arguments Raise {A} e.

Inductive event :=
| EvExists (path : string) (r : bool)
| EvIsdir (path : string) (r : bool)
| EvListdir (path : string)
| EvMakedirs (path : string)
| EvOpenW (path : string)
| EvPopen (argv : list string) (cwd out err : string) (r : outcome Z)
| EvPoll (p : Z) (r : option Z)
| EvKill (p : Z) (sig : signal) (r : option exn)
| EvSleep (secs : nat)
| EvDump (d : dict)
| EvPrint (line : string).

(** The operating system.  The file system outside the registry file does not
    change during one command; processes do, so their answers take the history
    of the command so far.  [None] from [proc_kill], [fs_makedirs] and
    [fs_open_w] is a normal return, [Some e] the exception raised; [proc_poll]
    is [Popen.poll()]: [None] while the child runs, its return code after. *)
Record os_env := {
  fs_exists : string -> bool;
  fs_isdir : string -> bool;
  fs_listdir : string -> outcome (list string);
  fs_makedirs : string -> option exn;
  fs_open_w : string -> option exn;
  proc_popen : list event -> list string -> string -> outcome Z;
  proc_poll : list event -> Z -> option Z;
  proc_kill : list event -> Z -> signal -> option exn;
  clock_strftime : list event -> string
}.

Record world := { registry : registry_file; trace : list event }.

(** ** The monad of the script *)

Definition M (A : Type) : Type := world -> outcome A * world.

Definition ret {A} (a : A) : M A := fun w => (Ret a, w).

Definition bind {A B} (m : M A) (f : A -> M B) : M B :=
  fun w => match m w with
           | (Ret a, w') => f a w'
           | (Raise e, w') => (Raise e, w')
           end.

Definition raise {A} (e : exn) : M A := fun w => (Raise e, w).

(** [try: m except ...: h e]; a handler re-raises what its clauses do not
    catch. *)
Definition catch {A} (m : M A) (h : exn -> M A) : M A :=
  fun w => match m w with
           | (Ret a, w') => (Ret a, w')
           | (Raise e, w') => h e w'
           end.

Declare Scope py_scope.
Delimit Scope py_scope with py.
Notation "x <- c1 ;; c2" := (bind c1 (fun x => c2))
  (at level 61, c1 at next level, right associativity) : py_scope.
Notation "c1 ;; c2" := (bind c1 (fun _ => c2))
  (at level 61, right associativity) : py_scope.
Local Open Scope py_scope.

Definition log (e : event) (w : world) : world :=
  {| registry := registry w; trace := trace w ++ [e] |}.

Definition MCP_DIR : string := "/Users/kinglerbercy/MCP".

Definition processes_file : string := PyStr.path_join MCP_DIR "running_processes.json".

Definition python_entry_points : list string := ["app.py"; "main.py"; "server.py"].

Definition is_missing (f : registry_file) : bool :=
  match f with Missing => true | _ => false end.

(** ** The supervisor *)

Section Supervisor.

Variable env : os_env.

(** *** The library calls the script makes *)

Definition print (line : string) : M unit :=
  fun w => (Ret tt, log (EvPrint line) w).

(** What [os.path.exists(p)] answers: the registry file exists unless it is
    [Missing], the rest of the file system is the environment's. *)
Definition path_present (f : registry_file) (p : string) : bool :=
  if p =? processes_file then negb (is_missing f) else fs_exists env p.

Definition os_path_exists (p : string) : M bool :=
  fun w =>
    let r := path_present (registry w) p in
    (Ret r, log (EvExists p r) w).

Definition os_path_isdir (p : string) : M bool :=
  fun w => let r := fs_isdir env p in (Ret r, log (EvIsdir p r) w).

Definition os_listdir (p : string) : M (list string) :=
  fun w => (fs_listdir env p, log (EvListdir p) w).

(** [os.makedirs(p, exist_ok=True)]. *)
Definition os_makedirs (p : string) : M unit :=
  fun w => (match fs_makedirs env p with None => Ret tt | Some e => Raise e end,
            log (EvMakedirs p) w).

(** [open(p, "w")] of a log file. *)
Definition open_w (p : string) : M unit :=
  fun w => (match fs_open_w env p with None => Ret tt | Some e => Raise e end,
            log (EvOpenW p) w).

(** [subprocess.Popen(argv, cwd=cwd, stdout=out, stderr=err)]; the value is
    [process.pid]. *)
Definition Popen (argv : list string) (cwd out err : string) : M Z :=
  fun w => let r := proc_popen env (trace w) argv cwd in
           (r, log (EvPopen argv cwd out err r) w).

(** [process.poll()]. *)
Definition poll (p : Z) : M (option Z) :=
  fun w => let r := proc_poll env (trace w) p in (Ret r, log (EvPoll p r) w).

(** [os.kill(p, sig)]. *)
Definition os_kill (p : Z) (sig : signal) : M unit :=
  fun w => let r := proc_kill env (trace w) p sig in
           (match r with None => Ret tt | Some e => Raise e end,
            log (EvKill p sig r) w).

Definition time_sleep (secs : nat) : M unit :=
  fun w => (Ret tt, log (EvSleep secs) w).

(** [time.strftime("%Y-%m-%d %H:%M:%S")]. *)
Definition time_strftime : M string :=
  fun w => (Ret (clock_strftime env (trace w)), w).

(** [with open(processes_file, "r") as f: json.load(f)].  A registry file
    that exists can be read, and what parses is a table of well-formed
    entries. *)
Definition json_load : M dict :=
  fun w => (match registry w with
            | Parsed d => Ret d
            | Corrupt => Raise (JSONDecodeError "Expecting value")
            | Missing => Raise (OSError "No such file or directory")
            end, w).

(** [with open(processes_file, "w") as f: json.dump(d, f, indent=2)].  The
    registry file can be written. *)
Definition json_dump (d : dict) : M unit :=
  fun w => (Ret tt, {| registry := Parsed d; trace := trace w ++ [EvDump d] |}).

(** *** [save_process_info] and [remove_process_info] *)

Definition save_process_info (server_name : string) (p : Z) : M unit :=
  ex <- os_path_exists processes_file ;;
  processes <- (if ex : bool then
                  catch json_load
                    (fun e => match e with
                              | JSONDecodeError _ => ret []
                              | _ => raise e
                              end)
                else ret []) ;;
  now <- time_strftime ;;
  json_dump (Dict.set server_name {| pid := p; started_at := now |} processes).

Definition remove_process_info (server_name : string) : M unit :=
  ex <- os_path_exists processes_file ;;
  if ex : bool then
    processes <- catch
                   (processes <- json_load ;;
                    if Dict.mem server_name processes
                    then ret (Dict.del server_name processes)
                    else ret processes)
                   (fun e => match e with
                             | JSONDecodeError _ => ret []
                             | _ => raise e
                             end) ;;
    json_dump processes
  else ret tt.

(** *** [start_server] *)

(** [next((ep for ep in eps if os.path.exists(os.path.join(server_path, ep))), None)] *)
Fixpoint next_existing (server_path : string) (eps : list string) : M (option string) :=
  match eps with
  | [] => ret None
  | ep :: rest =>
      found <- os_path_exists (PyStr.path_join server_path ep) ;;
      if found : bool then ret (Some ep) else next_existing server_path rest
  end.

Definition start_server (server_name : string) : M bool :=
  let server_path := PyStr.path_join MCP_DIR server_name in
  found <- os_path_exists server_path ;;
  if negb found then
    print ("Error: Server " ++ server_name ++ " not found") ;;
    ret false
  else
    is_node <- os_path_exists (PyStr.path_join server_path "package.json") ;;
    is_python <- os_path_exists (PyStr.path_join server_path "requirements.txt") ;;
    let logs_dir := PyStr.path_join MCP_DIR "logs" in
    os_makedirs logs_dir ;;
    let stdout_log := PyStr.path_join logs_dir (server_name ++ ".out.log") in
    let stderr_log := PyStr.path_join logs_dir (server_name ++ ".err.log") in
    catch
      (open_w stdout_log ;;
       open_w stderr_log ;;
       (* [Some pid]: a process was spawned; [None]: the branch returned False *)
       process <-
         (if is_node : bool then
            build <- os_path_exists
                       (PyStr.path_join (PyStr.path_join server_path "build") "index.js") ;;
            if build : bool then
              print ("Starting Node.js server: " ++ server_name ++ " (build/index.js)") ;;
              p <- Popen ["node"; "build/index.js"] server_path stdout_log stderr_log ;;
              ret (Some p)
            else
              dist <- os_path_exists
                        (PyStr.path_join (PyStr.path_join server_path "dist") "index.js") ;;
              if dist : bool then
                print ("Starting Node.js server: " ++ server_name ++ " (dist/index.js)") ;;
                p <- Popen ["node"; "dist/index.js"] server_path stdout_log stderr_log ;;
                ret (Some p)
              else
                print ("Starting Node.js server: " ++ server_name ++ " (npm start)") ;;
                p <- Popen ["npm"; "start"] server_path stdout_log stderr_log ;;
                ret (Some p)
          else if is_python : bool then
            entry_point <- next_existing server_path python_entry_points ;;
            match entry_point with
            | Some ep =>
                print ("Starting Python server: " ++ server_name ++ " (" ++ ep ++ ")") ;;
                p <- Popen ["python"; ep] server_path stdout_log stderr_log ;;
                ret (Some p)
            | None =>
                print ("Error: No Python entry point found for " ++ server_name) ;;
                ret None
            end
          else
            print ("Unknown server type for " ++ server_name) ;;
            ret None) ;;
       match process with
       | None => ret false
       | Some p =>
           save_process_info server_name p ;;
           time_sleep 2 ;;
           rc <- poll p ;;
           match rc with
           | Some _ =>
               print ("Error: Server " ++ server_name
                      ++ " failed to start. Check logs: " ++ stderr_log) ;;
               ret false
           | None =>
               print ("Server " ++ server_name ++ " started with PID " ++ PyStr.of_Z p) ;;
               print ("Logs: " ++ stdout_log ++ ", " ++ stderr_log) ;;
               ret true
           end
       end)
      (fun e =>
         print ("Error starting server " ++ server_name ++ ": " ++ exn_msg e) ;;
         ret false).

(** *** [stop_server] *)

(** The loop [for _ in range(5)].  [Some b]: the function returned [b] from
    inside the loop; [None]: the loop ran to its end. *)
Fixpoint wait_for_exit (server_name : string) (p : Z) (attempts : nat) : M (option bool) :=
  match attempts with
  | O => ret None
  | S rest =>
      r <- catch
             (os_kill p SIG0 ;;
              time_sleep 1 ;;
              ret None)
             (fun e =>
                if is_OSError e then
                  print ("Server " ++ server_name ++ " stopped") ;;
                  remove_process_info server_name ;;
                  ret (Some true)
                else raise e) ;;
      match r with
      | Some b => ret (Some b)
      | None => wait_for_exit server_name p rest
      end
  end.

Definition stop_server (server_name : string) : M bool :=
  found <- os_path_exists processes_file ;;
  if negb found then
    print "Error: No record of running processes found" ;;
    ret false
  else
    loaded <- catch
                (processes <- json_load ;; ret (Some processes))
                (fun e => match e with
                          | JSONDecodeError _ =>
                              print "Error: Process records file is corrupted" ;;
                              ret None
                          | _ => raise e
                          end) ;;
    match loaded with
    | None => ret false
    | Some processes =>
        match Dict.get server_name processes with
        | None =>
            print ("Error: Server " ++ server_name ++ " does not appear to be running") ;;
            ret false
        | Some info =>
            let p := pid info in
            catch
              (os_kill p SIGTERM ;;
               print ("Termination signal sent to server " ++ server_name
                      ++ " (PID " ++ PyStr.of_Z p ++ ")") ;;
               r <- wait_for_exit server_name p 5 ;;
               match r with
               | Some b => ret b
               | None =>
                   print ("Server " ++ server_name
                          ++ " did not terminate gracefully, sending SIGKILL") ;;
                   os_kill p SIGKILL ;;
                   print ("Server " ++ server_name ++ " forcefully stopped") ;;
                   remove_process_info server_name ;;
                   ret true
               end)
              (fun e =>
                 match e with
                 | ProcessLookupError _ =>
                     print ("Process " ++ PyStr.of_Z p ++ " not found, removing from records") ;;
                     remove_process_info server_name ;;
                     ret true
                 | _ =>
                     print ("Error stopping server " ++ server_name ++ ": " ++ exn_msg e) ;;
                     ret false
                 end)
        end
    end.

(** *** [list_servers] and [list_running] *)

(** The comprehension
    [[d for d in all_dirs if os.path.isdir(...) and ("server" in d.lower() or "mcp" in d.lower())]]. *)
Fixpoint server_dirs (all_dirs : list string) : M (list string) :=
  match all_dirs with
  | [] => ret []
  | d :: rest =>
      isdir <- os_path_isdir (PyStr.path_join MCP_DIR d) ;;
      if isdir && (PyStr.contains "server" (PyStr.lower d)
                   || PyStr.contains "mcp" (PyStr.lower d))
      then servers <- server_dirs rest ;; ret (d :: servers)
      else server_dirs rest
  end.

Fixpoint report_servers (running_servers : dict) (servers : list string) : M unit :=
  match servers with
  | [] => ret tt
  | server :: rest =>
      let status := if Dict.mem server running_servers then "running" else "stopped" in
      print ("- " ++ server ++ " [" ++ status ++ "]") ;;
      match Dict.get server running_servers with
      | Some info =>
          catch
            (os_kill (pid info) SIG0 ;;
             print ("  PID: " ++ PyStr.of_Z (pid info)
                    ++ ", Started at: " ++ started_at info))
            (fun e =>
               if is_OSError e then
                 print ("  WARNING: Process with PID " ++ PyStr.of_Z (pid info)
                        ++ " is not running, but is marked as running")
               else raise e)
      | None => ret tt
      end ;;
      report_servers running_servers rest
  end.

Definition list_servers : M unit :=
  all_dirs <- os_listdir MCP_DIR ;;
  servers <- server_dirs all_dirs ;;
  found <- os_path_exists processes_file ;;
  running_servers <- (if found : bool then
                        catch json_load
                          (fun e => match e with
                                    | JSONDecodeError _ => ret []
                                    | _ => raise e
                                    end)
                      else ret []) ;;
  print ("Found " ++ PyStr.of_nat (length servers) ++ " MCP servers:") ;;
  report_servers running_servers (PyStr.sorted servers).

Fixpoint report_running (items : dict) : M unit :=
  match items with
  | [] => ret tt
  | (server, info) :: rest =>
      catch
        (os_kill (pid info) SIG0 ;;
         print ("- " ++ server) ;;
         print ("  PID: " ++ PyStr.of_Z (pid info) ++ ", Started at: " ++ started_at info))
        (fun e =>
           if is_OSError e then
             print ("- " ++ server ++ " (STALE)") ;;
             print ("  PID: " ++ PyStr.of_Z (pid info)
                    ++ ", Started at: " ++ started_at info) ;;
             print "  WARNING: Process is no longer running"
           else raise e) ;;
      report_running rest
  end.

Definition list_running : M unit :=
  found <- os_path_exists processes_file ;;
  if negb found then
    print "No running servers found"
  else
    loaded <- catch
                (processes <- json_load ;; ret (Some processes))
                (fun e => match e with
                          | JSONDecodeError _ =>
                              print "Error reading process records file" ;;
                              ret None
                          | _ => raise e
                          end) ;;
    match loaded with
    | None => ret tt
    | Some [] => print "No running servers found"
    | Some processes =>
        print ("Running MCP servers (" ++ PyStr.of_nat (length processes) ++ "):") ;;
        report_running (Dict.sorted_items processes)
    end.

(** *** [stop_all] *)

(** The loop [for server in list(processes.keys())], with [success_count]. *)
Fixpoint stop_each (servers : list string) (success_count : nat) : M nat :=
  match servers with
  | [] => ret success_count
  | server :: rest =>
      print (PyStr.nl ++ "Stopping " ++ server ++ "...") ;;
      stopped <- stop_server server ;;
      stop_each rest (if stopped : bool then S success_count else success_count)
  end.

Definition stop_all : M unit :=
  found <- os_path_exists processes_file ;;
  if negb found then
    print "No running servers found"
  else
    loaded <- catch
                (processes <- json_load ;; ret (Some processes))
                (fun e => match e with
                          | JSONDecodeError _ =>
                              print "Error reading process records file" ;;
                              ret None
                          | _ => raise e
                          end) ;;
    match loaded with
    | None => ret tt
    | Some [] => print "No running servers found"
    | Some processes =>
        print ("Stopping all running MCP servers ("
               ++ PyStr.of_nat (length processes) ++ ")...") ;;
        success_count <- stop_each (Dict.keys processes) 0 ;;
        print (PyStr.nl ++ "Successfully stopped " ++ PyStr.of_nat success_count
               ++ " out of " ++ PyStr.of_nat (length processes) ++ " servers")
    end.

(** *** [clean_stale] *)

(** The first loop: the list [stale], in the order of the table. *)
Fixpoint collect_stale (items : dict) (stale : list string) : M (list string) :=
  match items with
  | [] => ret stale
  | (server, info) :: rest =>
      stale' <- catch
                  (os_kill (pid info) SIG0 ;; ret stale)
                  (fun e => if is_OSError e then ret (stale ++ [server]) else raise e) ;;
      collect_stale rest stale'
  end.

(** The second loop: [for server in stale]. *)
Fixpoint remove_each (processes : dict) (stale : list string) : M unit :=
  match stale with
  | [] => ret tt
  | server :: rest =>
      match Dict.get server processes with
      | Some info =>
          print ("- " ++ server ++ " (PID: " ++ PyStr.of_Z (pid info) ++ ")") ;;
          remove_process_info server ;;
          remove_each processes rest
      | None => raise (PyException server)   (* KeyError: processes[server] *)
      end
  end.

(** The body of [clean_stale].  The source returns nothing and reports the
    removed names by printing them; the body is given with the value of its
    local list [stale] (empty where the function returns before building
    it), so that the removed-list has a name. *)
Definition clean_stale_body : M (list string) :=
  found <- os_path_exists processes_file ;;
  if negb found then
    print "No running servers found" ;;
    ret []
  else
    loaded <- catch
                (processes <- json_load ;; ret (Some processes))
                (fun e => match e with
                          | JSONDecodeError _ =>
                              print "Error reading process records file" ;;
                              ret None
                          | _ => raise e
                          end) ;;
    match loaded with
    | None => ret []
    | Some [] =>
        print "No processes to clean" ;;
        ret []
    | Some processes =>
        print ("Checking " ++ PyStr.of_nat (length processes)
               ++ " process records for stale entries...") ;;
        stale <- collect_stale processes [] ;;
        match stale with
        | [] =>
            print "No stale process records found" ;;
            ret []
        | _ =>
            print ("Found " ++ PyStr.of_nat (length stale) ++ " stale entries to clean:") ;;
            remove_each processes stale ;;
            print "Stale entries cleaned successfully" ;;
            ret stale
        end
    end.

Definition clean_stale : M unit :=
  clean_stale_body ;; ret tt.

(** *** [main] *)

(** What [parser.parse_args()] yields. *)
Inductive command :=
| CmdStart (server : string)
| CmdStop (server : string)
| CmdList
| CmdRunning
| CmdStopall
| CmdClean.

Definition main (args : command) : M unit :=
  match args with
  | CmdStart server => start_server server ;; ret tt
  | CmdStop server => stop_server server ;; ret tt
  | CmdList => list_servers
  | CmdRunning => list_running
  | CmdStopall => stop_all
  | CmdClean => clean_stale
  end.

End Supervisor.

(** ** Vocabulary of the properties *)

(** The events a computation appends to the trace when run from [w]. *)
Definition events_of {A} (m : M A) (w : world) : list event :=
  skipn (length (trace w)) (trace (snd (m w))).

(** The processes spawned in a trace: command line and working directory. *)
Definition popens (t : list event) : list (list string * string) :=
  flat_map (fun e => match e with
                     | EvPopen argv cwd _ _ _ => [(argv, cwd)]
                     | _ => []
                     end) t.

(** The lines printed in a trace. *)
Definition printed (t : list event) : list string :=
  flat_map (fun e => match e with EvPrint line => [line] | _ => [] end) t.

(** The tables written to the registry file in a trace. *)
Definition writes (t : list event) : list dict :=
  flat_map (fun e => match e with EvDump d => [d] | _ => [] end) t.

(** A computation that leaves the registry file alone: it only appends events
    to the trace, none of them a write of the file. *)
Definition read_only {A} (m : M A) : Prop :=
  forall w, exists new,
    snd (m w) = {| registry := registry w; trace := trace w ++ new |} /\ writes new = [].

(** What [stop_server] prints when it refuses. *)
Definition stop_refusal (server_name : string) (f : registry_file) : string :=
  match f with
  | Missing => "Error: No record of running processes found"
  | Corrupt => "Error: Process records file is corrupted"
  | Parsed _ => "Error: Server " ++ server_name ++ " does not appear to be running"
  end.

(** The history of [stop_server] once the termination signal has been sent. *)
Definition sigterm_sent (server_name : string) (p : Z) (t : list event) : list event :=
  t ++ [EvExists processes_file true;
        EvKill p SIGTERM None;
        EvPrint ("Termination signal sent to server " ++ server_name
                 ++ " (PID " ++ PyStr.of_Z p ++ ")")].

(** [k] polls that found the process alive, each followed by its one-second
    sleep. *)
Fixpoint alive_polls (p : Z) (k : nat) : list event :=
  match k with
  | O => []
  | S k' => EvKill p SIG0 None :: EvSleep 1 :: alive_polls p k'
  end.

(** A fixed process-liveness oracle: whether signal 0 can be sent to a process
    id does not depend on the moment, and a dead process is reported by an
    [OSError]. *)
Definition liveness_oracle (env : os_env) (alive : Z -> bool) : Prop :=
  forall h p,
    if alive p then proc_kill env h p SIG0 = None
    else exists e, proc_kill env h p SIG0 = Some e /\ is_OSError e = true.

(** The names of the entries of a table whose process is dead, in the order of
    the table. *)
Definition stale_names (alive : Z -> bool) (d : dict) : list string :=
  Dict.keys (filter (fun kv => negb (alive (pid (snd kv)))) d).

(** A table without the entries of the given names. *)
Definition without (names : list string) (d : dict) : dict :=
  filter (fun kv => negb (existsb (String.eqb (fst kv)) names)) d.

(** The resolution policy of the launcher, in the words of the specification:
    package-manager family first (build artifact, dist artifact, generic start
    command), then the interpreted family (first conventional entry point
    found), else a resolution failure. *)
Inductive resolution :=
| Run (argv : list string)
| ResolutionFailure.

Definition launcher_policy (present : string -> bool) (server_path : string) : resolution :=
  if present (PyStr.path_join server_path "package.json") then
    if present (PyStr.path_join (PyStr.path_join server_path "build") "index.js")
    then Run ["node"; "build/index.js"]
    else if present (PyStr.path_join (PyStr.path_join server_path "dist") "index.js")
    then Run ["node"; "dist/index.js"]
    else Run ["npm"; "start"]
  else if present (PyStr.path_join server_path "requirements.txt") then
    match find (fun ep => present (PyStr.path_join server_path ep))
               ["app.py"; "main.py"; "server.py"] with
    | Some ep => Run ["python"; ep]
    | None => ResolutionFailure
    end
  else ResolutionFailure.

Fixpoint last_char (s : string) : option ascii :=
  match s with
  | EmptyString => None
  | String c EmptyString => Some c
  | String _ r => last_char r
  end.

(** *** Sample environments *)

(** An environment in which exactly the paths [files] exist, every spawn
    yields process 4242, a spawned child is found with return code [rc] after
    the settle delay, and signals are answered by [kill]. *)
Definition sample_env (files : list string) (rc : option Z)
           (kill : list event -> Z -> signal -> option exn) : os_env :=
  {| fs_exists := fun p => existsb (String.eqb p) files;
     fs_isdir := fun p => existsb (String.eqb p) files;
     fs_listdir := fun _ => Ret ["figma-mcp"; "notes"];
     fs_makedirs := fun _ => None;
     fs_open_w := fun _ => None;
     proc_popen := fun _ _ _ => Ret 4242%Z;
     proc_poll := fun _ _ => rc;
     proc_kill := kill;
     clock_strftime := fun _ => "2025-01-01 12:00:00" |}.

Definition no_such_process : exn := ProcessLookupError "[Errno 3] No such process".

(** Every process is gone. *)
Definition all_gone (h : list event) (p : Z) (sig : signal) : option exn :=
  Some no_such_process.

(** Every process stays alive whatever it is sent. *)
Definition never_dies (h : list event) (p : Z) (sig : signal) : option exn := None.

Definition sleeps (h : list event) : nat :=
  length (filter (fun e => match e with EvSleep _ => true | _ => false end) h).

(** Processes take the termination signal and are gone [k] seconds later. *)
Definition dies_after (k : nat) (h : list event) (p : Z) (sig : signal) : option exn :=
  if (sleeps h <? k)%nat then None else Some no_such_process.

(** Process 7 is alive, every other one is dead. *)
Definition only_7_alive (p : Z) : bool := (p =? 7)%Z.

Definition probe_only_7 (h : list event) (p : Z) (sig : signal) : option exn :=
  if only_7_alive p then None else Some no_such_process.

Definition node_files : list string :=
  ["/Users/kinglerbercy/MCP/figma-mcp";
   "/Users/kinglerbercy/MCP/figma-mcp/package.json";
   "/Users/kinglerbercy/MCP/figma-mcp/build/index.js"].

Definition both_markers_files : list string :=
  ["/Users/kinglerbercy/MCP/figma-mcp";
   "/Users/kinglerbercy/MCP/figma-mcp/package.json";
   "/Users/kinglerbercy/MCP/figma-mcp/requirements.txt";
   "/Users/kinglerbercy/MCP/figma-mcp/main.py"].

Definition python_files : list string :=
  ["/Users/kinglerbercy/MCP/figma-mcp";
   "/Users/kinglerbercy/MCP/figma-mcp/requirements.txt";
   "/Users/kinglerbercy/MCP/figma-mcp/main.py";
   "/Users/kinglerbercy/MCP/figma-mcp/server.py"].

Definition two_servers : dict :=
  [("a-server", {| pid := 7; started_at := "2025-01-01 09:00:00" |});
   ("figma-mcp", {| pid := 9; started_at := "2025-01-01 10:00:00" |})].

(** *** Vocabulary of the further properties *)

(** The seconds slept in a trace. *)
Fixpoint slept (t : list event) : nat :=
  match t with
  | [] => 0
  | EvSleep secs :: r => secs + slept r
  | _ :: r => slept r
  end.

(** The signals sent in a trace: process id and signal, in order. *)
Fixpoint signals (t : list event) : list (Z * signal) :=
  match t with
  | [] => []
  | EvKill p sig _ :: r => (p, sig) :: signals r
  | _ :: r => signals r
  end.

(** The signals of the escalation protocol of [stop_server]: the termination
    signal, [k] polls, and the kill signal if [killed]. *)
Definition escalation (p : Z) (k : nat) (killed : bool) : list (Z * signal) :=
  (p, SIGTERM) :: repeat (p, SIG0) k ++ (if killed then [(p, SIGKILL)] else []).

(** How the polling loop of [stop_server] on the table [d] can end: its value,
    the registry file it leaves, the tables it wrote. *)
Inductive loop_end (n : string) (d : dict) :
  outcome (option bool) -> registry_file -> list dict -> Prop :=
| loop_exhausted : loop_end n d (Ret None) (Parsed d) []
| loop_stopped : loop_end n d (Ret (Some true)) (Parsed (Dict.del n d)) [Dict.del n d]
| loop_raised e : is_OSError e = false -> loop_end n d (Raise e) (Parsed d) [].

(** No signal is ever refused: every call of [os.kill] returns, or finds no
    process with the given id. *)
Definition signals_never_refused (env : os_env) : Prop :=
  forall h p sig,
    proc_kill env h p sig = None
    \/ exists msg, proc_kill env h p sig = Some (ProcessLookupError msg).

Definition not_permitted : exn := OSError "[Errno 1] Operation not permitted".

(** No process may be signalled. *)
Definition all_refused (h : list event) (p : Z) (sig : signal) : option exn :=
  Some not_permitted.

(** An event of a command that only looks: no signal but signal 0, no sleep,
    no spawn, no directory or log file created. *)
Definition probe_only (e : event) : bool :=
  match e with
  | EvKill _ SIG0 _ => true
  | EvKill _ _ _ | EvSleep _ | EvPopen _ _ _ _ _ | EvPoll _ _
  | EvMakedirs _ | EvOpenW _ => false
  | _ => true
  end.

(** A computation all of whose events satisfy [P]. *)
Definition emits (P : event -> bool) {A} (m : M A) : Prop :=
  forall w, exists new, trace (snd (m w)) = trace w ++ new /\ forallb P new = true.




(** What [stop_all] prints last. *)
Definition stop_all_summary (stopped total : nat) : string :=
  PyStr.nl ++ "Successfully stopped " ++ PyStr.of_nat stopped
  ++ " out of " ++ PyStr.of_nat total ++ " servers".

(** An environment without the directory [MCP_DIR]. *)
Definition no_mcp_dir_env : os_env :=
  {| fs_exists := fun _ => false;
     fs_isdir := fun _ => false;
     fs_listdir := fun _ => Raise (OSError "[Errno 2] No such file or directory");
     fs_makedirs := fun _ => None;
     fs_open_w := fun _ => None;
     proc_popen := fun _ _ _ => Raise (OSError "[Errno 2] No such file or directory");
     proc_poll := fun _ _ => None;
     proc_kill := never_dies;
     clock_strftime := fun _ => "2025-01-01 12:00:00" |}.


(** * Properties *)

(** ** Running the script symbolically *)

Ltac run :=
  cbv beta iota zeta delta
      [bind ret raise catch print os_path_exists os_path_isdir os_listdir os_makedirs
       open_w Popen poll os_kill time_sleep time_strftime json_load json_dump log
       registry trace negb is_missing entries_of fst snd is_OSError].

Lemma path_present_processes_file env f :
  path_present env f processes_file = negb (is_missing f).
Proof. unfold path_present. rewrite String.eqb_refl. reflexivity. Qed.

Lemma skipn_length_app {A} (t new : list A) : skipn (length t) (t ++ new) = new.
Proof. induction t; simpl; auto. Qed.

(** ** The table *)

Lemma get_del_same k d : Dict.get k (Dict.del k d) = None.
Proof.
  induction d as [|[k' v] d IH]; simpl; auto.
  destruct (String.eqb_spec k' k); simpl; auto.
  destruct (String.eqb_spec k' k); [contradiction | auto].
Qed.

Lemma get_del_other k k' d : k' <> k -> Dict.get k' (Dict.del k d) = Dict.get k' d.
Proof.
  intros Hne. induction d as [|[k0 v] d IH]; simpl; auto.
  destruct (String.eqb_spec k0 k); simpl.
  - subst. destruct (String.eqb_spec k k'); [congruence | auto].
  - rewrite IH. reflexivity.
Qed.

Lemma del_absent k d : Dict.mem k d = false -> Dict.del k d = d.
Proof.
  unfold Dict.mem. induction d as [|[k0 v] d IH]; simpl; auto.
  destruct (String.eqb_spec k0 k); simpl; [discriminate|].
  intros H. rewrite IH; auto.
Qed.


Lemma keys_set_incl k v d : incl (Dict.keys d) (Dict.keys (Dict.set k v d)).
Proof.
  induction d as [|[k0 v0] d IH]; simpl.
  - intros x [].
  - destruct (String.eqb_spec k0 k); simpl.
    + subst. apply incl_refl.
    + intros x [Hx | Hx]; [left; auto | right; apply IH; auto].
Qed.

(** ** [remove_process_info] and [save_process_info], run *)

Lemma remove_process_info_parsed env n d t :
  remove_process_info env n {| registry := Parsed d; trace := t |} =
  (Ret tt, {| registry := Parsed (Dict.del n d);
              trace := t ++ [EvExists processes_file true; EvDump (Dict.del n d)] |}).
Proof.
  unfold remove_process_info. run. rewrite path_present_processes_file. run.
  destruct (Dict.mem n d) eqn:Hm; run; rewrite <- ?app_assoc; cbn [app].
  - reflexivity.
  - rewrite (del_absent _ _ Hm). reflexivity.
Qed.



Lemma save_process_info_run env n p f t :
  save_process_info env n p {| registry := f; trace := t |} =
  (Ret tt,
   let now := clock_strftime env (t ++ [EvExists processes_file (negb (is_missing f))]) in
   let d := Dict.set n {| pid := p; started_at := now |} (entries_of f) in
   {| registry := Parsed d;
      trace := t ++ [EvExists processes_file (negb (is_missing f)); EvDump d] |}).
Proof.
  unfold save_process_info. run. rewrite path_present_processes_file.
  destruct f; run; rewrite <- ?app_assoc; reflexivity.
Qed.

(** ** [stop_server] refuses an unknown name *)

(** C5 - For every server name without a registry entry (the file is missing,
    unparseable, or parsed without the name), [stop_server] returns [False]
    after printing its refusal, sends no signal, writes nothing, and leaves
    the registry file as it was. *)
Theorem stop_server_without_entry env n w :
  Dict.get n (entries_of (registry w)) = None ->
  stop_server env n w =
  (Ret false,
   {| registry := registry w;
      trace := trace w ++ [EvExists processes_file (negb (is_missing (registry w)));
                           EvPrint (stop_refusal n (registry w))] |}).
Proof.
  intros H. destruct w as [f t]. unfold stop_server. run.
  rewrite path_present_processes_file.
  destruct f; run; cbn [entries_of registry] in H; try rewrite H; run;
    rewrite <- ?app_assoc; reflexivity.
Qed.

Lemma stop_server_without_entry_witness :
  Dict.get "ghost" (entries_of (Parsed two_servers)) = None /\
  stop_server (sample_env [] None never_dies) "ghost"
              {| registry := Parsed two_servers; trace := [] |} =
  (Ret false,
   {| registry := Parsed two_servers;
      trace := [EvExists processes_file true;
                EvPrint "Error: Server ghost does not appear to be running"] |}).
Proof.
  split; [reflexivity|].
  apply (stop_server_without_entry (sample_env [] None never_dies) "ghost"
           {| registry := Parsed two_servers; trace := [] |}).
  reflexivity.
Defined.

(** ** [stop_server] on a process that is already gone *)

(** C4 - If the name has an entry and the termination signal finds no process
    with the recorded id ([ProcessLookupError]), [stop_server] removes the
    entry of the name, writes the table back and returns [True]. *)
Theorem stop_server_process_gone env n w d info msg :
  registry w = Parsed d ->
  Dict.get n d = Some info ->
  proc_kill env (trace w ++ [EvExists processes_file true]) (pid info) SIGTERM
  = Some (ProcessLookupError msg) ->
  stop_server env n w =
  (Ret true,
   {| registry := Parsed (Dict.del n d);
      trace := trace w ++
               [EvExists processes_file true;
                EvKill (pid info) SIGTERM (Some (ProcessLookupError msg));
                EvPrint ("Process " ++ PyStr.of_Z (pid info)
                         ++ " not found, removing from records");
                EvExists processes_file true;
                EvDump (Dict.del n d)] |})
  /\ Dict.get n (Dict.del n d) = None.
Proof.
  intros Hr Hg Hk. split; [|apply get_del_same].
  destruct w as [f t]. cbn [registry trace] in Hr, Hk. subst f.
  unfold stop_server. run.
  rewrite path_present_processes_file. run. rewrite Hg. run. rewrite Hk. run.
  rewrite remove_process_info_parsed.
  rewrite <- ?app_assoc. reflexivity.
Qed.

Lemma stop_server_process_gone_witness :
  stop_server (sample_env [] None all_gone) "figma-mcp"
              {| registry := Parsed two_servers; trace := [] |} =
  (Ret true,
   {| registry := Parsed [("a-server", {| pid := 7; started_at := "2025-01-01 09:00:00" |})];
      trace := [EvExists processes_file true;
                EvKill 9 SIGTERM (Some no_such_process);
                EvPrint "Process 9 not found, removing from records";
                EvExists processes_file true;
                EvDump [("a-server", {| pid := 7; started_at := "2025-01-01 09:00:00" |})]] |})
  /\ Dict.get "figma-mcp" (Dict.del "figma-mcp" two_servers) = None.
Proof.
  apply (stop_server_process_gone (sample_env [] None all_gone) "figma-mcp"
           {| registry := Parsed two_servers; trace := [] |}
           two_servers {| pid := 9; started_at := "2025-01-01 10:00:00" |}
           "[Errno 3] No such process"); reflexivity.
Defined.

(** ** [list_running] on an unparseable registry file *)



(** ** [remove_process_info] on an unparseable registry file *)



(** ** The escalation protocol of [stop_server] *)

Lemma app_alive_polls_S (t : list event) p j :
  t ++ alive_polls p (S j) = ((t ++ [EvKill p SIG0 None]) ++ [EvSleep 1]) ++ alive_polls p j.
Proof. cbn [alive_polls]. rewrite <- !app_assoc. reflexivity. Qed.

(** The loop runs to its end when every poll finds the process alive. *)
Lemma wait_for_exit_alive env n p f :
  forall attempts t,
    (forall j, (j < attempts)%nat -> proc_kill env (t ++ alive_polls p j) p SIG0 = None) ->
    wait_for_exit env n p attempts {| registry := f; trace := t |} =
    (Ret None, {| registry := f; trace := t ++ alive_polls p attempts |}).
Proof.
  induction attempts as [|attempts IH]; intros t Halive.
  - cbn [wait_for_exit alive_polls]. run. rewrite app_nil_r. reflexivity.
  - cbn [wait_for_exit]. run.
    pose proof (Halive 0%nat (Nat.lt_0_succ _)) as H0.
    cbn [alive_polls] in H0. rewrite app_nil_r in H0. rewrite H0. run.
    rewrite IH.
    + rewrite app_alive_polls_S. reflexivity.
    + intros j Hj. rewrite <- app_alive_polls_S. apply Halive. lia.
Qed.

(** The loop returns [True] at the first poll that raises an [OSError], after
    removing the entry. *)
Lemma wait_for_exit_dies env n p d e :
  forall k attempts t,
    (k < attempts)%nat ->
    (forall j, (j < k)%nat -> proc_kill env (t ++ alive_polls p j) p SIG0 = None) ->
    proc_kill env (t ++ alive_polls p k) p SIG0 = Some e ->
    is_OSError e = true ->
    wait_for_exit env n p attempts {| registry := Parsed d; trace := t |} =
    (Ret (Some true),
     {| registry := Parsed (Dict.del n d);
        trace := (t ++ alive_polls p k)
                 ++ [EvKill p SIG0 (Some e);
                     EvPrint ("Server " ++ n ++ " stopped");
                     EvExists processes_file true;
                     EvDump (Dict.del n d)] |}).
Proof.
  induction k as [|k IH]; intros attempts t Hlt Halive Hdead He.
  - destruct attempts as [|attempts]; [lia|].
    cbn [alive_polls] in *. rewrite app_nil_r in *.
    cbn [wait_for_exit]. run. rewrite Hdead. run.
    destruct e; try discriminate He; run;
      rewrite remove_process_info_parsed; rewrite <- ?app_assoc; reflexivity.
  - destruct attempts as [|attempts]; [lia|].
    cbn [wait_for_exit]. run.
    pose proof (Halive 0%nat (Nat.lt_0_succ _)) as H0.
    cbn [alive_polls] in H0. rewrite app_nil_r in H0. rewrite H0. run.
    rewrite (IH attempts).
    + rewrite app_alive_polls_S. reflexivity.
    + lia.
    + intros j Hj. rewrite <- app_alive_polls_S. apply Halive. lia.
    + rewrite <- app_alive_polls_S. exact Hdead.
    + exact He.
Qed.

(** C2 - The name has an entry with process id [p] and the termination signal
    is delivered.  Then [stop_server] polls [p] with signal 0, sleeping one
    second after each poll that finds it alive, at most 5 times.  At the first
    poll [k < 5] that finds [p] dead the entry is removed and [True] returned.
    If all 5 polls find [p] alive, the kill signal is sent, and once it is
    delivered (or finds [p] gone in the meantime) the entry is removed and
    [True] returned, with no further probe of [p]. *)
Theorem stop_server_escalation env n w d info :
  registry w = Parsed d ->
  Dict.get n d = Some info ->
  proc_kill env (trace w ++ [EvExists processes_file true]) (pid info) SIGTERM = None ->
  let p := pid info in
  let polled k := sigterm_sent n p (trace w) ++ alive_polls p k in
  let giving_up :=
    EvPrint ("Server " ++ n ++ " did not terminate gracefully, sending SIGKILL") in
  (forall k e,
      (k < 5)%nat ->
      (forall j, (j < k)%nat -> proc_kill env (polled j) p SIG0 = None) ->
      proc_kill env (polled k) p SIG0 = Some e ->
      is_OSError e = true ->
      stop_server env n w =
      (Ret true,
       {| registry := Parsed (Dict.del n d);
          trace := polled k ++ [EvKill p SIG0 (Some e);
                                EvPrint ("Server " ++ n ++ " stopped");
                                EvExists processes_file true;
                                EvDump (Dict.del n d)] |}))
  /\ ((forall j, (j < 5)%nat -> proc_kill env (polled j) p SIG0 = None) ->
      proc_kill env (polled 5 ++ [giving_up]) p SIGKILL = None ->
      stop_server env n w =
      (Ret true,
       {| registry := Parsed (Dict.del n d);
          trace := polled 5 ++ [giving_up;
                                EvKill p SIGKILL None;
                                EvPrint ("Server " ++ n ++ " forcefully stopped");
                                EvExists processes_file true;
                                EvDump (Dict.del n d)] |}))
  /\ (forall msg,
         (forall j, (j < 5)%nat -> proc_kill env (polled j) p SIG0 = None) ->
         proc_kill env (polled 5 ++ [giving_up]) p SIGKILL = Some (ProcessLookupError msg) ->
         stop_server env n w =
         (Ret true,
          {| registry := Parsed (Dict.del n d);
             trace := polled 5 ++ [giving_up;
                                   EvKill p SIGKILL (Some (ProcessLookupError msg));
                                   EvPrint ("Process " ++ PyStr.of_Z p
                                            ++ " not found, removing from records");
                                   EvExists processes_file true;
                                   EvDump (Dict.del n d)] |}))
  /\ Dict.get n (Dict.del n d) = None.
Proof.
  intros Hr Hg Hterm p polled giving_up.
  destruct w as [f t]. cbn [registry trace] in *. subst f.
  assert (Hstart : forall k,
             polled k =
             (((t ++ [EvExists processes_file true]) ++ [EvKill p SIGTERM None])
                ++ [EvPrint ("Termination signal sent to server " ++ n
                             ++ " (PID " ++ PyStr.of_Z p ++ ")")])
               ++ alive_polls p k).
  { intros k. unfold polled, sigterm_sent. rewrite <- !app_assoc. reflexivity. }
  split; [|split; [|split; [|apply get_del_same]]].
  - intros k e Hk Halive Hdead He.
    unfold stop_server. run. rewrite path_present_processes_file. run.
    rewrite Hg. run. rewrite Hterm. run. fold p.
    rewrite (wait_for_exit_dies env n p d e k 5).
    + run. rewrite <- Hstart. reflexivity.
    + exact Hk.
    + intros j Hj. rewrite <- Hstart. apply Halive, Hj.
    + rewrite <- Hstart. exact Hdead.
    + exact He.
  - intros Halive Hkill.
    unfold stop_server. run. rewrite path_present_processes_file. run.
    rewrite Hg. run. rewrite Hterm. run. fold p.
    rewrite wait_for_exit_alive.
    + run. rewrite <- Hstart. fold giving_up. rewrite Hkill. run.
      rewrite remove_process_info_parsed. rewrite <- ?app_assoc. reflexivity.
    + intros j Hj. rewrite <- Hstart. apply Halive, Hj.
  - intros msg Halive Hkill.
    unfold stop_server. run. rewrite path_present_processes_file. run.
    rewrite Hg. run. rewrite Hterm. run. fold p.
    rewrite wait_for_exit_alive.
    + run. rewrite <- Hstart. fold giving_up. rewrite Hkill. run.
      rewrite remove_process_info_parsed. rewrite <- ?app_assoc. reflexivity.
    + intros j Hj. rewrite <- Hstart. apply Halive, Hj.
Qed.

Lemma stop_server_escalation_witness :
  stop_server (sample_env [] None (dies_after 2)) "figma-mcp"
              {| registry := Parsed two_servers; trace := [] |} =
  (Ret true,
   {| registry := Parsed [("a-server", {| pid := 7; started_at := "2025-01-01 09:00:00" |})];
      trace := [EvExists processes_file true;
                EvKill 9 SIGTERM None;
                EvPrint "Termination signal sent to server figma-mcp (PID 9)";
                EvKill 9 SIG0 None; EvSleep 1;
                EvKill 9 SIG0 None; EvSleep 1;
                EvKill 9 SIG0 (Some no_such_process);
                EvPrint "Server figma-mcp stopped";
                EvExists processes_file true;
                EvDump [("a-server", {| pid := 7; started_at := "2025-01-01 09:00:00" |})]] |})
  /\ stop_server (sample_env [] None never_dies) "figma-mcp"
                 {| registry := Parsed two_servers; trace := [] |} =
     (Ret true,
      {| registry := Parsed [("a-server", {| pid := 7; started_at := "2025-01-01 09:00:00" |})];
         trace := [EvExists processes_file true;
                   EvKill 9 SIGTERM None;
                   EvPrint "Termination signal sent to server figma-mcp (PID 9)";
                   EvKill 9 SIG0 None; EvSleep 1;
                   EvKill 9 SIG0 None; EvSleep 1;
                   EvKill 9 SIG0 None; EvSleep 1;
                   EvKill 9 SIG0 None; EvSleep 1;
                   EvKill 9 SIG0 None; EvSleep 1;
                   EvPrint "Server figma-mcp did not terminate gracefully, sending SIGKILL";
                   EvKill 9 SIGKILL None;
                   EvPrint "Server figma-mcp forcefully stopped";
                   EvExists processes_file true;
                   EvDump [("a-server", {| pid := 7; started_at := "2025-01-01 09:00:00" |})]] |})
  /\ fst (stop_server (sample_env [] None (dies_after 5)) "figma-mcp"
                      {| registry := Parsed two_servers; trace := [] |}) = Ret true.
Proof.
  split; [|split].
  - destruct (stop_server_escalation
                (sample_env [] None (dies_after 2)) "figma-mcp"
                {| registry := Parsed two_servers; trace := [] |}
                two_servers {| pid := 9; started_at := "2025-01-01 10:00:00" |}
                eq_refl eq_refl eq_refl) as [Hgraceful _].
    apply (Hgraceful 2%nat no_such_process).
    + lia.
    + intros j Hj. destruct j as [|[|j]]; [reflexivity | reflexivity | lia].
    + reflexivity.
    + reflexivity.
  - destruct (stop_server_escalation
                (sample_env [] None never_dies) "figma-mcp"
                {| registry := Parsed two_servers; trace := [] |}
                two_servers {| pid := 9; started_at := "2025-01-01 10:00:00" |}
                eq_refl eq_refl eq_refl) as [_ [Hforceful _]].
    apply Hforceful.
    + intros j Hj. reflexivity.
    + reflexivity.
  - destruct (stop_server_escalation
                (sample_env [] None (dies_after 5)) "figma-mcp"
                {| registry := Parsed two_servers; trace := [] |}
                two_servers {| pid := 9; started_at := "2025-01-01 10:00:00" |}
                eq_refl eq_refl eq_refl) as [_ [_ [Hgone _]]].
    rewrite (Hgone "[Errno 3] No such process").
    + reflexivity.
    + intros j Hj.
      destruct j as [|[|[|[|[|j]]]]]; [reflexivity .. | lia].
    + reflexivity.
Defined.

(** ** The launcher *)

(** Case analysis on everything the operating system answers during
    [start_server]. *)
Ltac start_cases :=
  repeat first
    [ progress run
    | progress rewrite path_present_processes_file
    | match goal with
      | |- context [path_present ?e ?f ?p] => destruct (path_present e f p)
      | |- context [fs_makedirs ?e ?p] => destruct (fs_makedirs e p)
      | |- context [fs_open_w ?e ?p] => destruct (fs_open_w e p)
      | |- context [proc_popen ?e ?h ?a ?c] => destruct (proc_popen e h a c)
      | |- context [proc_poll ?e ?h ?p] => destruct (proc_poll e h p)
      | |- context [match ?f with Missing => _ | Corrupt => _ | Parsed _ => _ end] =>
          is_var f; destruct f
      end ].

(** Bring a trace built by successive [log]s to the form [t ++ [e1; ...; en]]
    and read off the appended events. *)
Ltac traces := rewrite <- ?app_assoc; cbn [app]; rewrite ?skipn_length_app.

(** The same for a goal [res = (r, w') -> G res]: normalise the run once, then
    substitute it. *)
Ltac conclude_run :=
  rewrite <- ?app_assoc; cbn [app]; intros ->;
  cbn [fst snd trace registry]; rewrite ?skipn_length_app.

(** C6 - When the server directory exists and the log files can be opened,
    [start_server] spawns what the resolution policy says, in its order: for a
    directory with [package.json], [node build/index.js] if that file exists,
    else [node dist/index.js] if that one exists, else [npm start]; without
    [package.json] but with [requirements.txt], [python] on the first of
    [app.py], [main.py], [server.py] that exists; exactly one process, in the
    server directory.  When no rule resolves, it spawns nothing, writes
    nothing, prints the failure and returns [False]. *)
Theorem start_server_resolution env n w :
  let sp := PyStr.path_join MCP_DIR n in
  let logs := PyStr.path_join MCP_DIR "logs" in
  path_present env (registry w) sp = true ->
  fs_makedirs env logs = None ->
  fs_open_w env (PyStr.path_join logs (n ++ ".out.log")) = None ->
  fs_open_w env (PyStr.path_join logs (n ++ ".err.log")) = None ->
  popens (events_of (start_server env n) w) =
  match launcher_policy (path_present env (registry w)) sp with
  | Run argv => [(argv, sp)]
  | ResolutionFailure => []
  end
  /\ (launcher_policy (path_present env (registry w)) sp = ResolutionFailure ->
      fst (start_server env n w) = Ret false
      /\ registry (snd (start_server env n w)) = registry w
      /\ writes (events_of (start_server env n) w) = []
      /\ printed (events_of (start_server env n) w) =
         [if path_present env (registry w) (PyStr.path_join sp "requirements.txt")
          then ("Error: No Python entry point found for " ++ n)%string
          else ("Unknown server type for " ++ n)%string]).
Proof.
  intros sp logs Hsp Hmk Hout Herr. destruct w as [f t].
  unfold events_of.
  remember (start_server env n {| registry := f; trace := t |}) as res eqn:Hrun.
  revert Hrun.
  unfold start_server, launcher_policy, save_process_info,
    python_entry_points, next_existing, find.
  subst sp logs. cbn [registry trace] in *.
  run. rewrite Hsp, Hmk, Hout, Herr. clear Hsp Hmk Hout Herr.
  start_cases.
  all: conclude_run.
  all: split; [reflexivity | intros Hfail; try discriminate Hfail].
  all: repeat split; reflexivity.
Qed.

Lemma start_server_resolution_witness :
  popens (events_of (start_server (sample_env python_files None never_dies) "figma-mcp")
                    {| registry := Missing; trace := [] |})
  = [(["python"; "main.py"], "/Users/kinglerbercy/MCP/figma-mcp")]
  /\ popens (events_of (start_server (sample_env both_markers_files None never_dies)
                                     "figma-mcp")
                       {| registry := Missing; trace := [] |})
     = [(["npm"; "start"], "/Users/kinglerbercy/MCP/figma-mcp")]
  /\ fst (start_server
            (sample_env ["/Users/kinglerbercy/MCP/figma-mcp"] None never_dies) "figma-mcp"
            {| registry := Missing; trace := [] |})
     = Ret false.
Proof.
  split; [|split].
  - destruct (start_server_resolution
                (sample_env python_files None never_dies) "figma-mcp"
                {| registry := Missing; trace := [] |}
                eq_refl eq_refl eq_refl eq_refl) as [Hrun _].
    exact Hrun.
  - destruct (start_server_resolution
                (sample_env both_markers_files None never_dies) "figma-mcp"
                {| registry := Missing; trace := [] |}
                eq_refl eq_refl eq_refl eq_refl) as [Hrun _].
    exact Hrun.
  - destruct (start_server_resolution
                (sample_env ["/Users/kinglerbercy/MCP/figma-mcp"] None never_dies)
                "figma-mcp" {| registry := Missing; trace := [] |}
                eq_refl eq_refl eq_refl eq_refl) as [_ Hfail].
    destruct (Hfail eq_refl) as [Hret _]. exact Hret.
Defined.

(** ** Paths of the entry points *)

Lemma append_empty_inv (a b : string) : (a ++ b)%string = EmptyString -> b = EmptyString.
Proof. destruct a; simpl; [auto | discriminate]. Qed.

Lemma last_char_append (a b : string) :
  b <> EmptyString -> last_char (a ++ b) = last_char b.
Proof.
  intros Hb. induction a as [|c a IH]; simpl; auto.
  destruct (a ++ b)%string eqn:E.
  - apply append_empty_inv in E. contradiction.
  - exact IH.
Qed.

Lemma last_char_path_join (a b : string) :
  b <> EmptyString -> last_char (PyStr.path_join a b) = last_char b.
Proof.
  intros Hb. unfold PyStr.path_join.
  destruct (String.prefix "/" b); [reflexivity|].
  destruct ((a =? "") || PyStr.endswith_sep a)%bool.
  - apply last_char_append, Hb.
  - rewrite last_char_append; [apply last_char_append, Hb|].
    destruct b; [contradiction | discriminate].
Qed.

Lemma length_append (a b : string) :
  String.length (a ++ b) = (String.length a + String.length b)%nat.
Proof. induction a; simpl; auto. Qed.

Lemma path_join_longer (a b : string) :
  String.prefix "/" b = false -> b <> EmptyString -> PyStr.path_join a b <> a.
Proof.
  intros Hrel Hb Heq. apply (f_equal String.length) in Heq. revert Heq.
  unfold PyStr.path_join. rewrite Hrel.
  assert (0 < String.length b)%nat by (destruct b; [contradiction | simpl; lia]).
  destruct ((a =? "") || PyStr.endswith_sep a)%bool;
    rewrite ?length_append; simpl; lia.
Qed.

(** No path probed by the package-manager branch is the path of a Python
    entry point. *)
Lemma entry_point_path_fresh sp ep q :
  In ep python_entry_points ->
  q = sp \/ last_char q <> Some "y"%char ->
  q <> PyStr.path_join sp ep.
Proof.
  intros Hep Hq Heq.
  assert (Hlast : last_char (PyStr.path_join sp ep) = Some "y"%char
                  /\ String.prefix "/" ep = false /\ ep <> EmptyString).
  { cbn [python_entry_points In] in Hep.
    destruct Hep as [<- | [<- | [<- | []]]];
      (split; [rewrite last_char_path_join; [reflexivity | discriminate]
              | split; [reflexivity | discriminate]]). }
  destruct Hlast as [Hy [Hrel Hne]].
  destruct Hq as [-> | Hq].
  - symmetry in Heq. exact (path_join_longer sp ep Hrel Hne Heq).
  - apply Hq. rewrite Heq. exact Hy.
Qed.

(** ** Precedence of the package-manager family *)

Ltac fresh_probe Hep :=
  match goal with
  | Hq : ?q = PyStr.path_join ?sp ?ep |- False =>
      apply (entry_point_path_fresh sp ep q Hep);
      [ first [ left; reflexivity
              | right; rewrite ?last_char_path_join by discriminate;
                let Hc := fresh in intros Hc; vm_compute in Hc; discriminate Hc ]
      | exact Hq ]
  end.

(** C10 - When the server directory holds both [package.json] and
    [requirements.txt], [start_server] takes the package-manager branch: it
    never probes the path of a Python entry point, whatever it spawns is
    [node build/index.js], [node dist/index.js] or [npm start] in the server
    directory, and without a compiled artifact it spawns [npm start]. *)
Theorem start_server_node_precedence env n w :
  let sp := PyStr.path_join MCP_DIR n in
  let logs := PyStr.path_join MCP_DIR "logs" in
  path_present env (registry w) sp = true ->
  path_present env (registry w) (PyStr.path_join sp "package.json") = true ->
  path_present env (registry w) (PyStr.path_join sp "requirements.txt") = true ->
  (forall ep b, In ep python_entry_points ->
                ~ In (EvExists (PyStr.path_join sp ep) b) (events_of (start_server env n) w))
  /\ (forall argv cwd,
         In (argv, cwd) (popens (events_of (start_server env n) w)) ->
         cwd = sp /\ In argv [["node"; "build/index.js"]; ["node"; "dist/index.js"];
                              ["npm"; "start"]])
  /\ (fs_makedirs env logs = None ->
      fs_open_w env (PyStr.path_join logs (n ++ ".out.log")) = None ->
      fs_open_w env (PyStr.path_join logs (n ++ ".err.log")) = None ->
      path_present env (registry w)
                   (PyStr.path_join (PyStr.path_join sp "build") "index.js") = false ->
      path_present env (registry w)
                   (PyStr.path_join (PyStr.path_join sp "dist") "index.js") = false ->
      popens (events_of (start_server env n) w) = [(["npm"; "start"], sp)]).
Proof.
  intros sp logs Hsp Hnode Hpy. destruct w as [f t].
  unfold events_of.
  remember (start_server env n {| registry := f; trace := t |}) as res eqn:Hrun.
  revert Hrun.
  unfold start_server, save_process_info.
  subst sp logs. cbn [registry trace] in *.
  run. rewrite Hsp, Hnode, Hpy. clear Hsp Hnode Hpy.
  start_cases.
  all: conclude_run.
  all: split; [ intros ep b Hep Hin; cbn [In] in Hin;
                repeat match goal with H : _ \/ _ |- _ => destruct H as [H | H] end;
                try discriminate; try contradiction;
                match goal with H : EvExists _ _ = EvExists _ _ |- _ => injection H as H _ end;
                fresh_probe Hep
              | split;
                [ intros argv cwd Hin; unfold popens in Hin; cbn [flat_map app In] in Hin;
                  repeat match goal with H : _ \/ _ |- _ => destruct H as [H | H] end;
                  try contradiction;
                  injection Hin as <- <-; (split; [reflexivity | cbn [In]; auto 10])
                | intros; try discriminate; reflexivity ] ].
Qed.

Lemma start_server_node_precedence_witness :
  ~ In (EvExists "/Users/kinglerbercy/MCP/figma-mcp/main.py" true)
       (events_of (start_server (sample_env both_markers_files None never_dies) "figma-mcp")
                  {| registry := Missing; trace := [] |})
  /\ popens (events_of (start_server (sample_env both_markers_files None never_dies)
                                     "figma-mcp")
                       {| registry := Missing; trace := [] |})
     = [(["npm"; "start"], "/Users/kinglerbercy/MCP/figma-mcp")].
Proof.
  destruct (start_server_node_precedence
              (sample_env both_markers_files None never_dies) "figma-mcp"
              {| registry := Missing; trace := [] |} eq_refl eq_refl eq_refl)
    as [Hprobe [_ Hnpm]].
  split.
  - apply (Hprobe "main.py" true). cbn [python_entry_points In]. auto.
  - apply Hnpm; reflexivity.
Defined.

(** ** What [start_server] leaves in the registry file *)

(** Whenever the child is found exited after the settle delay, [start_server]
    returns [False] with the entry of the name already written; and whatever
    happens, the file is left as it was or with that one entry set. *)
Lemma start_server_registry env n w :
  (forall p rc,
      In (EvPoll p (Some rc)) (events_of (start_server env n) w) ->
      fst (start_server env n w) = Ret false
      /\ exists now,
          registry (snd (start_server env n w)) =
          Parsed (Dict.set n {| pid := p; started_at := now |} (entries_of (registry w))))
  /\ (registry (snd (start_server env n w)) = registry w
      \/ exists e, registry (snd (start_server env n w)) =
                   Parsed (Dict.set n e (entries_of (registry w)))).
Proof.
  destruct w as [f t]. unfold events_of.
  remember (start_server env n {| registry := f; trace := t |}) as res eqn:Hrun.
  revert Hrun.
  unfold start_server, save_process_info, python_entry_points, next_existing.
  cbn [registry trace]. 
  start_cases.
  all: conclude_run.
  all: split;
    [ intros p rc Hin; cbn [In] in Hin;
      repeat match goal with H : _ \/ _ |- _ => destruct H as [H | H] end;
      try discriminate; try contradiction;
      injection Hin as <- <-; (split; [reflexivity | eexists; reflexivity])
    | first [ left; reflexivity | right; eexists; reflexivity ] ].
Qed.

(** C1, on the code - A server whose child exits within the settle delay:
    [start_server] returns [False], and the registry file, which held no entry
    for the name, now holds one with the process id of the dead child.  The
    entry is written by [save_process_info] before the sleep and the poll, and
    nothing removes it afterwards. *)
Theorem start_server_early_exit_records_entry :
  let env := sample_env node_files (Some 1%Z) never_dies in
  let before := Parsed [("a-server", {| pid := 7; started_at := "2025-01-01 09:00:00" |})] in
  let w := {| registry := before; trace := [] |} in
  Dict.get "figma-mcp" (entries_of before) = None
  /\ fst (start_server env "figma-mcp" w) = Ret false
  /\ In (EvPoll 4242 (Some 1%Z)) (events_of (start_server env "figma-mcp") w)
  /\ registry (snd (start_server env "figma-mcp" w)) =
     Parsed [("a-server", {| pid := 7; started_at := "2025-01-01 09:00:00" |});
             ("figma-mcp", {| pid := 4242; started_at := "2025-01-01 12:00:00" |})]
  /\ registry (snd (start_server env "figma-mcp" w)) <> before.
Proof.
  vm_compute. repeat split; auto 20.
  intros H. discriminate H.
Qed.

(** ** The listings are read-only *)

Lemma writes_app t1 t2 : writes (t1 ++ t2) = writes t1 ++ writes t2.
Proof. unfold writes. apply flat_map_app. Qed.

Create HintDb read_only.

Section ReadOnly.

Variable env : os_env.

Lemma read_only_ret {A} (a : A) : read_only (ret a).
Proof. intros [f t]. exists []. cbn. rewrite app_nil_r. auto. Qed.

Lemma read_only_raise {A} (e : exn) : read_only (@raise A e).
Proof. intros [f t]. exists []. cbn. rewrite app_nil_r. auto. Qed.

Lemma read_only_bind {A B} (m : M A) (f : A -> M B) :
  read_only m -> (forall a, read_only (f a)) -> read_only (bind m f).
Proof.
  intros Hm Hf w. unfold bind.
  destruct (Hm w) as [new1 [E1 W1]].
  destruct (m w) as [[a | e] w1]; cbn [snd] in E1; subst w1.
  - destruct (Hf a {| registry := registry w; trace := trace w ++ new1 |})
      as [new2 [E2 W2]].
    cbn [registry trace] in E2.
    exists (new1 ++ new2). rewrite E2, app_assoc, writes_app, W1, W2. auto.
  - exists new1. auto.
Qed.

Lemma read_only_catch {A} (m : M A) (h : exn -> M A) :
  read_only m -> (forall e, read_only (h e)) -> read_only (catch m h).
Proof.
  intros Hm Hh w. unfold catch.
  destruct (Hm w) as [new1 [E1 W1]].
  destruct (m w) as [[a | e] w1]; cbn [snd] in E1; subst w1.
  - exists new1. auto.
  - destruct (Hh e {| registry := registry w; trace := trace w ++ new1 |})
      as [new2 [E2 W2]].
    cbn [registry trace] in E2.
    exists (new1 ++ new2). rewrite E2, app_assoc, writes_app, W1, W2. auto.
Qed.

Lemma read_only_log {A} (r : world -> outcome A) (ev : world -> event) :
  (forall w, writes [ev w] = []) -> read_only (fun w => (r w, log (ev w) w)).
Proof. intros Hev w. exists [ev w]. split; [reflexivity | apply Hev]. Qed.

Lemma read_only_print line : read_only (print line).
Proof. apply (read_only_log (fun _ => Ret tt) (fun _ => EvPrint line)). reflexivity. Qed.

Lemma read_only_os_path_exists p : read_only (os_path_exists env p).
Proof.
  apply (read_only_log (fun w => Ret (path_present env (registry w) p))
                       (fun w => EvExists p (path_present env (registry w) p))).
  reflexivity.
Qed.

Lemma read_only_os_path_isdir p : read_only (os_path_isdir env p).
Proof.
  apply (read_only_log (fun _ => Ret (fs_isdir env p)) (fun _ => EvIsdir p (fs_isdir env p))).
  reflexivity.
Qed.

Lemma read_only_os_listdir p : read_only (os_listdir env p).
Proof.
  apply (read_only_log (fun _ => fs_listdir env p) (fun _ => EvListdir p)). reflexivity.
Qed.

Lemma read_only_os_kill p sig : read_only (os_kill env p sig).
Proof.
  apply (read_only_log
           (fun w => match proc_kill env (trace w) p sig with
                     | None => Ret tt | Some e => Raise e end)
           (fun w => EvKill p sig (proc_kill env (trace w) p sig))).
  reflexivity.
Qed.

Lemma read_only_json_load : read_only json_load.
Proof. intros [f t]. exists []. cbn. rewrite app_nil_r. auto. Qed.

#[local] Hint Resolve read_only_ret read_only_raise read_only_print read_only_os_path_exists
     read_only_os_path_isdir read_only_os_listdir read_only_os_kill read_only_json_load
  : read_only.

Ltac read_only_step :=
  first
    [ apply read_only_bind; [|intros ?]
    | apply read_only_catch; [|intros ?]
    | solve [auto with read_only]
    | match goal with
      | |- read_only (if ?b then _ else _) => destruct b
      | |- read_only (match ?x with _ => _ end) => destruct x
      end ].

Lemma read_only_server_dirs all_dirs : read_only (server_dirs env all_dirs).
Proof.
  induction all_dirs as [|d rest IH]; cbn [server_dirs]; repeat read_only_step.
Qed.

Lemma read_only_report_servers running servers :
  read_only (report_servers env running servers).
Proof.
  induction servers as [|server rest IH]; cbn [report_servers]; repeat read_only_step.
Qed.

Lemma read_only_report_running items : read_only (report_running env items).
Proof.
  induction items as [|[server info] rest IH]; cbn [report_running]; repeat read_only_step.
Qed.

#[local] Hint Resolve read_only_server_dirs read_only_report_servers read_only_report_running
  : read_only.

Lemma read_only_list_servers : read_only (list_servers env).
Proof. unfold list_servers. repeat read_only_step. Qed.

Lemma read_only_list_running : read_only (list_running env).
Proof. unfold list_running. repeat read_only_step. Qed.

End ReadOnly.

Lemma read_only_spec {A} (m : M A) w :
  read_only m -> registry (snd (m w)) = registry w /\ writes (events_of m w) = [].
Proof.
  intros Hm. destruct (Hm w) as [new [E W]]. unfold events_of. rewrite E.
  cbn [registry trace]. rewrite skipn_length_app. auto.
Qed.

(** C7 - [list_servers] and [list_running] leave the registry file exactly as
    it was and never write it, whatever the table and whatever the operating
    system answers, so no entry, live or stale, is removed, added or rewritten
    by them.  [start_server] does not remove entries either: every name of the
    table is still in it afterwards.  Removal is left to [stop_server] and
    [clean_stale], through [remove_process_info]. *)
Theorem listings_are_read_only env w :
  (registry (snd (list_servers env w)) = registry w
   /\ writes (events_of (list_servers env) w) = [])
  /\ (registry (snd (list_running env w)) = registry w
      /\ writes (events_of (list_running env) w) = [])
  /\ (forall n, incl (Dict.keys (entries_of (registry w)))
                     (Dict.keys (entries_of (registry (snd (start_server env n w)))))).
Proof.
  split; [apply read_only_spec, read_only_list_servers|].
  split; [apply read_only_spec, read_only_list_running|].
  intros n. destruct (start_server_registry env n w) as [_ [Hsame | [e Hset]]].
  - rewrite Hsame. apply incl_refl.
  - rewrite Hset. cbn [entries_of]. apply keys_set_incl.
Qed.

(** ** [clean_stale] is idempotent *)

Lemma without_nil d : without [] d = d.
Proof.
  unfold without. induction d as [|kv d IH]; cbn [filter existsb negb]; [reflexivity | f_equal; exact IH].
Qed.

Lemma without_cons s names d : without names (Dict.del s d) = without (s :: names) d.
Proof.
  unfold without, Dict.del. induction d as [|[k v] d IH]; cbn [filter fst existsb]; auto.
  destruct (k =? s); cbn [negb orb]; [exact IH|].
  cbn [filter fst]. destruct (negb (existsb (String.eqb k) names)); rewrite IH; reflexivity.
Qed.

Lemma existsb_eqb_In k names : existsb (String.eqb k) names = true <-> In k names.
Proof.
  rewrite existsb_exists. split.
  - intros [x [Hx Heq]]. apply String.eqb_eq in Heq. subst. exact Hx.
  - intros H. exists k. split; [exact H | apply String.eqb_refl].
Qed.

Lemma stale_names_get alive d s : In s (stale_names alive d) -> Dict.get s d <> None.
Proof.
  unfold stale_names, Dict.keys. rewrite in_map_iff.
  intros [[k v] [Hk Hin]]. cbn [fst] in Hk. subst k.
  apply filter_In in Hin. destruct Hin as [Hin _].
  induction d as [|[k0 v0] d IH]; [contradiction|].
  cbn [Dict.get]. destruct (String.eqb_spec k0 s); [discriminate|].
  destruct Hin as [Heq | Hin]; [congruence | auto].
Qed.

Lemma stale_names_none alive d :
  (forall kv, In kv d -> alive (pid (snd kv)) = true) -> stale_names alive d = [].
Proof.
  unfold stale_names. induction d as [|kv d IH]; intros H; cbn [filter]; auto.
  rewrite (H kv (or_introl eq_refl)). cbn [negb]. apply IH. intros kv' Hin. apply H. right. exact Hin.
Qed.

(** Nothing stale is left in a table without its stale names. *)
Lemma stale_names_without alive d :
  stale_names alive (without (stale_names alive d) d) = [].
Proof.
  apply stale_names_none. intros kv Hin.
  unfold without in Hin. apply filter_In in Hin. destruct Hin as [Hin Hkeep].
  destruct (alive (pid (snd kv))) eqn:Halive; [reflexivity|].
  exfalso. apply negb_true_iff in Hkeep.
  assert (Hs : In (fst kv) (stale_names alive d)).
  { unfold stale_names, Dict.keys. apply in_map. apply filter_In. split; [exact Hin|].
    rewrite Halive. reflexivity. }
  apply existsb_eqb_In in Hs. congruence.
Qed.

Lemma wf_functional d k v v' :
  Dict.wf d -> In (k, v) d -> In (k, v') d -> v = v'.
Proof.
  unfold Dict.wf, Dict.keys. induction d as [|[k0 v0] d IH]; intros Hwf H1 H2.
  - contradiction.
  - cbn [map fst] in Hwf. inversion Hwf as [|? ? Hnotin Hwf']; subst.
    destruct H1 as [H1 | H1], H2 as [H2 | H2].
    + congruence.
    + injection H1 as <- <-. exfalso. apply Hnotin.
      apply (in_map fst) in H2. exact H2.
    + injection H2 as <- <-. exfalso. apply Hnotin.
      apply (in_map fst) in H1. exact H1.
    + apply IH; assumption.
Qed.

(** In a table with distinct keys, removing the stale names keeps exactly the
    entries whose process is alive. *)
Lemma without_stale_names_wf alive d :
  Dict.wf d ->
  without (stale_names alive d) d = filter (fun kv => alive (pid (snd kv))) d.
Proof.
  intros Hwf. unfold without. apply filter_ext_in. intros [k v] Hin. cbn [fst snd].
  destruct (alive (pid v)) eqn:Halive.
  - apply negb_true_iff.
    destruct (existsb (String.eqb k) (stale_names alive d)) eqn:E; [|reflexivity].
    apply existsb_eqb_In in E. unfold stale_names, Dict.keys in E.
    apply in_map_iff in E. destruct E as [[k' v'] [Hk Hin']].
    cbn [fst] in Hk. subst k'. apply filter_In in Hin'. destruct Hin' as [Hin' Hdead].
    cbn [snd] in Hdead.
    rewrite (wf_functional d k v' v Hwf Hin' Hin), Halive in Hdead. discriminate Hdead.
  - apply negb_false_iff. apply existsb_eqb_In.
    unfold stale_names, Dict.keys. apply in_map_iff. exists (k, v). split; [reflexivity|].
    apply filter_In. split; [exact Hin|]. cbn [snd]. rewrite Halive. reflexivity.
Qed.

Section CleanStale.

Variable env : os_env.
Variable alive : Z -> bool.
Hypothesis Horacle : liveness_oracle env alive.

Lemma collect_stale_run f :
  forall items acc t,
  exists t',
    collect_stale env items acc {| registry := f; trace := t |} =
    (Ret (acc ++ stale_names alive items), {| registry := f; trace := t' |}).
Proof.
  induction items as [|[server info] rest IH]; intros acc t.
  - exists t. cbn [collect_stale]. unfold stale_names. cbn. rewrite app_nil_r. reflexivity.
  - cbn [collect_stale]. run.
    pose proof (Horacle t (pid info)) as Hp.
    unfold stale_names. cbn [filter snd].
    destruct (alive (pid info)).
    + rewrite Hp. run.
      destruct (IH acc (t ++ [EvKill (pid info) SIG0 None])) as [t' Ht']. exists t'. exact Ht'.
    + destruct Hp as [e [Hp He]]. rewrite Hp. run.
      destruct e; try discriminate He; run.
      * destruct (IH (acc ++ [server])
                     (t ++ [EvKill (pid info) SIG0 (Some (ProcessLookupError msg))]))
          as [t' Ht'].
        exists t'. rewrite Ht'. unfold stale_names. cbn [negb Dict.keys map fst].
        rewrite <- app_assoc. reflexivity.
      * destruct (IH (acc ++ [server])
                     (t ++ [EvKill (pid info) SIG0 (Some (OSError msg))]))
          as [t' Ht'].
        exists t'. rewrite Ht'. unfold stale_names. cbn [negb Dict.keys map fst].
        rewrite <- app_assoc. reflexivity.
Qed.

Lemma remove_each_run processes :
  forall stale d t,
    (forall s, In s stale -> Dict.get s processes <> None) ->
    exists t',
      remove_each env processes stale {| registry := Parsed d; trace := t |} =
      (Ret tt, {| registry := Parsed (without stale d); trace := t' |}).
Proof.
  induction stale as [|s rest IH]; intros d t Hin.
  - exists t. cbn [remove_each]. rewrite without_nil. reflexivity.
  - cbn [remove_each].
    destruct (Dict.get s processes) as [info|] eqn:Hget.
    + run. rewrite remove_process_info_parsed.
      edestruct (IH (Dict.del s d)) as [t' Ht'].
      * intros s' Hs'. apply Hin. right. exact Hs'.
      * exists t'. rewrite Ht'. rewrite without_cons. reflexivity.
    + exfalso. apply (Hin s (or_introl eq_refl)). exact Hget.
Qed.

(** One run of [clean_stale]: the removed-list is the stale names of the
    table, and the table is left without them. *)
Lemma clean_stale_body_run f t :
  exists t',
    clean_stale_body env {| registry := f; trace := t |} =
    (Ret (stale_names alive (entries_of f)),
     {| registry := match f with
                    | Parsed d => Parsed (without (stale_names alive d) d)
                    | _ => f
                    end;
        trace := t' |}).
Proof.
  unfold clean_stale_body. run. rewrite path_present_processes_file.
  destruct f as [| |d]; run.
  - eexists. reflexivity.
  - eexists. reflexivity.
  - destruct d as [|kv d'] eqn:Hd.
    + run. eexists. reflexivity.
    + rewrite <- Hd.
      edestruct (collect_stale_run (Parsed d) d []) as [t1 Ht1]. rewrite Ht1.
      cbn [app]. run.
      destruct (stale_names alive d) as [|s stale'] eqn:Hstale.
      * run. rewrite without_nil. eexists. reflexivity.
      * edestruct (remove_each_run d (s :: stale') d) as [t2 Ht2].
        { intros s0 Hs0. apply (stale_names_get alive). rewrite Hstale. exact Hs0. }
        run. rewrite Ht2. run. eexists. reflexivity.
Qed.

End CleanStale.

(** C3 - Under a fixed liveness oracle, a first run of [clean_stale] reports
    as removed the names of the stale entries of the table and leaves the table
    without them, so with no stale entry (and, the keys of a table being
    distinct, with every live entry); a second run in succession reports the
    empty removed-list and leaves the registry file as the first run left
    it. *)
Theorem clean_stale_idempotent env alive w :
  liveness_oracle env alive ->
  let removed := stale_names alive (entries_of (registry w)) in
  exists w1 w2,
    clean_stale_body env w = (Ret removed, w1)
    /\ clean_stale env w = (Ret tt, w1)
    /\ registry w1 = match registry w with
                     | Parsed d => Parsed (without removed d)
                     | f => f
                     end
    /\ stale_names alive (entries_of (registry w1)) = []
    /\ (Dict.wf (entries_of (registry w)) ->
        entries_of (registry w1)
        = filter (fun kv => alive (pid (snd kv))) (entries_of (registry w)))
    /\ clean_stale_body env w1 = (Ret [], w2)
    /\ clean_stale env w1 = (Ret tt, w2)
    /\ registry w2 = registry w1.
Proof.
  intros Horacle removed. destruct w as [f t].
  destruct (clean_stale_body_run env alive Horacle f t) as [t1 Hrun1].
  set (f1 := match f with
             | Parsed d => Parsed (without (stale_names alive d) d)
             | _ => f
             end) in *.
  assert (Hclean : stale_names alive (entries_of f1) = []).
  { subst f1. destruct f; cbn [entries_of]; try reflexivity. apply stale_names_without. }
  destruct (clean_stale_body_run env alive Horacle f1 t1) as [t2 Hrun2].
  rewrite Hclean in Hrun2.
  eexists. eexists. split; [exact Hrun1|].
  split; [unfold clean_stale, bind, ret; rewrite Hrun1; reflexivity|].
  split; [subst f1 removed; destruct f; reflexivity|].
  split; [exact Hclean|].
  split.
  { cbn [registry]. subst f1. destruct f; cbn [entries_of]; try reflexivity.
    apply without_stale_names_wf. }
  split; [exact Hrun2|].
  split; [unfold clean_stale, bind, ret; rewrite Hrun2; reflexivity|].
  cbn [registry]. destruct f1 as [| |d1]; try reflexivity.
  cbn [entries_of] in Hclean. rewrite Hclean, without_nil. reflexivity.
Qed.

Lemma probe_only_7_oracle : liveness_oracle (sample_env [] None probe_only_7) only_7_alive.
Proof.
  intros h p. cbn [proc_kill sample_env]. unfold probe_only_7.
  destruct (only_7_alive p); [reflexivity|].
  exists no_such_process. split; reflexivity.
Defined.

Lemma clean_stale_idempotent_witness :
  exists w1 w2,
    clean_stale_body (sample_env [] None probe_only_7)
                     {| registry := Parsed two_servers; trace := [] |} =
    (Ret ["figma-mcp"], w1)
    /\ clean_stale (sample_env [] None probe_only_7)
                   {| registry := Parsed two_servers; trace := [] |} = (Ret tt, w1)
    /\ registry w1 = Parsed [("a-server", {| pid := 7; started_at := "2025-01-01 09:00:00" |})]
    /\ stale_names only_7_alive (entries_of (registry w1)) = []
    /\ (Dict.wf two_servers ->
        entries_of (registry w1)
        = [("a-server", {| pid := 7; started_at := "2025-01-01 09:00:00" |})])
    /\ clean_stale_body (sample_env [] None probe_only_7) w1 = (Ret [], w2)
    /\ clean_stale (sample_env [] None probe_only_7) w1 = (Ret tt, w2)
    /\ registry w2 = registry w1.
Proof.
  exact (clean_stale_idempotent (sample_env [] None probe_only_7) only_7_alive
           {| registry := Parsed two_servers; trace := [] |} probe_only_7_oracle).
Defined.

(** * Further properties of the supervisor *)

(** ** Recording and removing entries *)


Lemma set_set k v1 v2 d : Dict.set k v2 (Dict.set k v1 d) = Dict.set k v2 d.
Proof.
  induction d as [|[k0 v0] d IH]; cbn [Dict.set].
  - rewrite String.eqb_refl. reflexivity.
  - destruct (String.eqb_spec k0 k); cbn [Dict.set].
    + rewrite String.eqb_refl. reflexivity.
    + destruct (String.eqb_spec k0 k); [contradiction | rewrite IH; reflexivity].
Qed.



Lemma mem_get_none k d : Dict.mem k d = false <-> Dict.get k d = None.
Proof. unfold Dict.mem. destruct (Dict.get k d); split; congruence. Qed.





(** X3 - Recording the same name twice leaves one entry, with the second
    process id: nothing of the first record remains. *)
Theorem save_twice_overwrites env n p1 p2 w :
  exists now,
    registry (snd (save_process_info env n p2 (snd (save_process_info env n p1 w))))
    = Parsed (Dict.set n {| pid := p2; started_at := now |} (entries_of (registry w))).
Proof.
  destruct w as [f t].
  rewrite save_process_info_run. cbn [snd]. rewrite save_process_info_run.
  cbn [snd registry entries_of]. eexists. rewrite set_set. reflexivity.
Qed.


(** ** What [stop_server] does, whatever the operating system answers *)

Lemma slept_app t1 t2 : slept (t1 ++ t2) = (slept t1 + slept t2)%nat.
Proof.
  induction t1 as [|e t1 IH]; cbn [app slept]; [reflexivity|].
  destruct e; rewrite IH; lia.
Qed.

Lemma signals_app t1 t2 : signals (t1 ++ t2) = signals t1 ++ signals t2.
Proof.
  induction t1 as [|e t1 IH]; cbn [app signals]; [reflexivity|].
  destruct e; rewrite IH; reflexivity.
Qed.

Lemma popens_app t1 t2 : popens (t1 ++ t2) = popens t1 ++ popens t2.
Proof. unfold popens. apply flat_map_app. Qed.

Lemma printed_app t1 t2 : printed (t1 ++ t2) = printed t1 ++ printed t2.
Proof. unfold printed. apply flat_map_app. Qed.

(** Split the measures of a trace [e1 :: ... :: new ++ l] and compute them on
    its explicit parts. *)
Ltac tally :=
  repeat first
    [ progress rewrite writes_app
    | progress rewrite popens_app
    | progress rewrite printed_app
    | progress rewrite signals_app
    | progress rewrite slept_app
    | progress cbn [slept signals app Nat.add repeat]
    | match goal with
      | |- context [writes []] => change (writes []) with (@nil dict)
      | |- context [popens []] => change (popens []) with (@nil (list string * string))
      | |- context [printed []] => change (printed []) with (@nil string)
      | |- context [writes [?e]] =>
          let v := eval cbv [writes flat_map app] in (writes [e]) in
          change (writes [e]) with v
      | |- context [popens [?e]] =>
          let v := eval cbv [popens flat_map app] in (popens [e]) in
          change (popens [e]) with v
      | |- context [printed [?e]] =>
          let v := eval cbv [printed flat_map app] in (printed [e]) in
          change (printed [e]) with v
      | |- context [writes (?e :: ?l)] => change (writes (e :: l)) with (writes [e] ++ writes l)
      | |- context [popens (?e :: ?l)] => change (popens (e :: l)) with (popens [e] ++ popens l)
      | |- context [printed (?e :: ?l)] =>
          change (printed (e :: l)) with (printed [e] ++ printed l)
      end ];
  rewrite ?app_nil_r.

Lemma wait_for_exit_profile env n p d :
  forall attempts t,
  exists k new r f',
    wait_for_exit env n p attempts {| registry := Parsed d; trace := t |}
    = (r, {| registry := f'; trace := t ++ new |})
    /\ loop_end n d r f' (writes new)
    /\ (k <= attempts)%nat
    /\ (r = Ret None -> k = attempts)
    /\ signals new = repeat (p, SIG0) k
    /\ (slept new <= k)%nat
    /\ popens new = []
    /\ (forall e, r = Raise e -> exists h, proc_kill env h p SIG0 = Some e).
Proof.
  induction attempts as [|attempts IH]; intros t.
  - exists 0%nat, [], (Ret None), (Parsed d). cbn [wait_for_exit]. run.
    rewrite app_nil_r. repeat split; try reflexivity; try constructor; discriminate.
  - cbn [wait_for_exit]. run.
    destruct (proc_kill env t p SIG0) as [e|] eqn:Hk; run.
    + destruct (is_OSError e) eqn:He.
      * exists 1%nat. eexists. exists (Ret (Some true)), (Parsed (Dict.del n d)).
        split.
        { destruct e; try discriminate He; run; rewrite remove_process_info_parsed;
            rewrite <- ?app_assoc; reflexivity. }
        tally.
        split; [apply loop_stopped|]. repeat split; try reflexivity; try lia; discriminate.
      * exists 1%nat. eexists. exists (Raise e), (Parsed d).
        split.
        { destruct e; try discriminate He; run; reflexivity. }
        tally.
        split; [apply loop_raised, He|].
        repeat split; try reflexivity; try lia; try discriminate.
        intros e' He'. injection He' as <-. exists t. exact Hk.
    + destruct (IH ((t ++ [EvKill p SIG0 None]) ++ [EvSleep 1]))
        as [k [new [r [f' [Hrun [Hend [Hle [Hex [Hsig [Hsl [Hpo Hraise]]]]]]]]]]].
      rewrite Hrun.
      exists (S k), ([EvKill p SIG0 None; EvSleep 1] ++ new), r, f'.
      split.
      { destruct r as [[b|]|e]; run; rewrite <- ?app_assoc; reflexivity. }
      tally. rewrite Hsig, Hpo.
      split; [exact Hend|].
      split; [lia|].
      split; [intros Hr; rewrite (Hex Hr); reflexivity|].
      split; [reflexivity|].
      split; [lia|]. split; [reflexivity | exact Hraise].
Qed.

Lemma stop_server_profile env n d info t :
  Dict.get n d = Some info ->
  exists (b : bool) (k : nat) (killed : bool) (new : list event),
    stop_server env n {| registry := Parsed d; trace := t |}
    = (Ret b, {| registry := if b then Parsed (Dict.del n d) else Parsed d;
                 trace := t ++ new |})
    /\ writes new = (if b then [Dict.del n d] else [])
    /\ signals new = escalation (pid info) k killed
    /\ (k <= 5)%nat
    /\ (killed = true -> k = 5%nat)
    /\ (slept new <= 5)%nat
    /\ popens new = []
    /\ (b = false ->
        exists h sig e,
          proc_kill env h (pid info) sig = Some e
          /\ forall msg, e <> ProcessLookupError msg).
Proof.
  intros Hg. unfold stop_server, escalation. run. rewrite path_present_processes_file. run.
  rewrite Hg. run.
  destruct (proc_kill env (t ++ [EvExists processes_file true]) (pid info) SIGTERM)
    as [e|] eqn:Hterm; run.
  - (* the termination signal raises *)
    destruct e; [exists true | exists false | exists false | exists false];
      exists 0%nat, false; eexists;
      (split; [run; rewrite ?remove_process_info_parsed;
               rewrite <- ?app_assoc; cbn [app]; reflexivity|]);
      tally; repeat split; try reflexivity; try lia; try discriminate;
      try (intros _; do 3 eexists; split; [eassumption | intros; discriminate]).
  - destruct (wait_for_exit_profile env n (pid info) d 5
                (((t ++ [EvExists processes_file true])
                    ++ [EvKill (pid info) SIGTERM None])
                   ++ [EvPrint ("Termination signal sent to server " ++ n
                                ++ " (PID " ++ PyStr.of_Z (pid info) ++ ")")]))
      as [k [new [r [f' [Hrun [Hend [Hle [Hex [Hsig [Hsl [Hpo Hraise]]]]]]]]]]].
    rewrite Hrun. run.
    inversion Hend as [Hr Hf Hw | Hr Hf Hw | e He Hr Hf Hw]; subst r f'.
    + (* five polls found the process alive *)
      specialize (Hex eq_refl). subst k. run.
      match goal with
      | |- context [proc_kill env ?h (pid info) SIGKILL] =>
          destruct (proc_kill env h (pid info) SIGKILL) as [e|] eqn:Hkill
      end; run.
      * destruct e; [exists true | exists false | exists false | exists false];
          exists 5%nat, true; eexists;
          (split; [run; rewrite ?remove_process_info_parsed;
                   rewrite <- ?app_assoc; cbn [app]; reflexivity|]);
          tally; rewrite <- ?Hw, ?Hsig, ?Hpo;
          repeat split; try reflexivity; try lia; try discriminate;
          try (intros _; do 3 eexists; split; [eassumption | intros; discriminate]).
      * exists true, 5%nat, true. eexists.
        split.
        { rewrite remove_process_info_parsed; rewrite <- ?app_assoc; cbn [app]; reflexivity. }
        tally; rewrite <- ?Hw, ?Hsig, ?Hpo;
          repeat split; try reflexivity; try lia; discriminate.
    + (* a poll found the process gone *)
      exists true, k, false. eexists.
      split; [rewrite <- ?app_assoc; cbn [app]; reflexivity|].
      tally; rewrite <- ?Hw, ?Hsig, ?Hpo, ?app_nil_r;
        repeat split; try reflexivity; try lia; discriminate.
    + (* a poll raised something that is not an OSError *)
      destruct (Hraise e eq_refl) as [h Hh].
      destruct e; try discriminate He;
        exists false, k, false; eexists;
        (split; [run; rewrite <- ?app_assoc; cbn [app]; reflexivity|]);
        tally; rewrite <- ?Hw, ?Hsig, ?Hpo, ?app_nil_r;
        repeat split; try reflexivity; try lia; try discriminate;
        try (intros _; do 3 eexists; split; [eassumption | intros; discriminate]).
Qed.

(** One run of [stop_server], from any registry file. *)
Lemma stop_server_run env n f t :
  exists (b : bool) (new : list event),
    stop_server env n {| registry := f; trace := t |}
    = (Ret b, {| registry := if b then Parsed (Dict.del n (entries_of f)) else f;
                 trace := t ++ new |})
    /\ writes new = (if b then [Dict.del n (entries_of f)] else [])
    /\ (b = true -> Dict.mem n (entries_of f) = true)
    /\ popens new = []
    /\ (slept new <= 5)%nat
    /\ match Dict.get n (entries_of f) with
       | None => signals new = []
       | Some info =>
           exists k killed,
             (k <= 5)%nat /\ (killed = true -> k = 5%nat)
             /\ signals new = escalation (pid info) k killed
       end.
Proof.
  destruct (Dict.get n (entries_of f)) as [info|] eqn:Hg.
  - destruct f as [| |d]; cbn [entries_of] in *; try discriminate Hg.
    destruct (stop_server_profile env n d info t Hg)
      as [b [k [killed [new [Hrun [Hw [Hsig [Hk [Hkilled [Hsl [Hpo _]]]]]]]]]]].
    exists b, new. rewrite Hrun.
    split; [destruct b; reflexivity|]. split; [exact Hw|].
    split; [intros _; unfold Dict.mem; rewrite Hg; reflexivity|].
    split; [exact Hpo|]. split; [exact Hsl|].
    exists k, killed. auto.
  - exists false. unfold stop_server. run. rewrite path_present_processes_file.
    destruct f as [| |d]; run; cbn [entries_of] in Hg; try rewrite Hg; run;
      eexists; rewrite <- ?app_assoc;
      (split; [reflexivity|]); tally;
      repeat split; try reflexivity; try lia; discriminate.
Qed.


(** X6 - Whatever the operating system answers, [stop_server] spawns
    nothing, sleeps at most 5 seconds, and signals only the process id recorded
    for the name: the termination signal, then at most 5 polls with signal 0,
    then the kill signal only after 5 polls; without an entry it sends no
    signal at all. *)
Theorem stop_server_effects env n w :
  popens (events_of (stop_server env n) w) = []
  /\ (slept (events_of (stop_server env n) w) <= 5)%nat
  /\ match Dict.get n (entries_of (registry w)) with
     | None => signals (events_of (stop_server env n) w) = []
     | Some info =>
         exists k killed,
           (k <= 5)%nat /\ (killed = true -> k = 5%nat)
           /\ signals (events_of (stop_server env n) w) = escalation (pid info) k killed
     end.
Proof.
  destruct w as [f t]. unfold events_of. cbn [registry trace].
  destruct (stop_server_run env n f t) as [b [new [Hrun [_ [_ [Hpo [Hsl Hsig]]]]]]].
  rewrite Hrun. cbn [fst snd registry trace]. rewrite skipn_length_app. auto.
Qed.

(** X7 - If the termination signal raises anything but [ProcessLookupError]
    (a [PermissionError], say), [stop_server] prints the error, returns
    [False] and keeps the entry: no poll, no kill signal, no write. *)
Theorem stop_server_signal_refused env n w d info e :
  registry w = Parsed d ->
  Dict.get n d = Some info ->
  proc_kill env (trace w ++ [EvExists processes_file true]) (pid info) SIGTERM = Some e ->
  (forall msg, e <> ProcessLookupError msg) ->
  stop_server env n w =
  (Ret false,
   {| registry := Parsed d;
      trace := trace w ++
               [EvExists processes_file true;
                EvKill (pid info) SIGTERM (Some e);
                EvPrint ("Error stopping server " ++ n ++ ": " ++ exn_msg e)] |}).
Proof.
  intros Hr Hg Hk Hne. destruct w as [f t]. cbn [registry trace] in *. subst f.
  unfold stop_server. run. rewrite path_present_processes_file. run.
  rewrite Hg. run. rewrite Hk. run.
  destruct e; run; rewrite <- ?app_assoc; try reflexivity.
  exfalso. apply (Hne msg). reflexivity.
Qed.

Lemma stop_server_signal_refused_witness :
  stop_server (sample_env [] None all_refused) "figma-mcp"
              {| registry := Parsed two_servers; trace := [] |} =
  (Ret false,
   {| registry := Parsed two_servers;
      trace := [EvExists processes_file true;
                EvKill 9 SIGTERM (Some not_permitted);
                EvPrint "Error stopping server figma-mcp: [Errno 1] Operation not permitted"] |}).
Proof.
  apply (stop_server_signal_refused
           (sample_env [] None all_refused) "figma-mcp"
           {| registry := Parsed two_servers; trace := [] |}
           two_servers {| pid := 9; started_at := "2025-01-01 10:00:00" |} not_permitted
           eq_refl eq_refl eq_refl).
  intros msg H. discriminate H.
Defined.

Lemma stop_server_run_unrefused env n d info t :
  signals_never_refused env ->
  Dict.get n d = Some info ->
  exists new,
    stop_server env n {| registry := Parsed d; trace := t |}
    = (Ret true, {| registry := Parsed (Dict.del n d); trace := t ++ new |}).
Proof.
  intros Hcoop Hg.
  destruct (stop_server_profile env n d info t Hg)
    as [b [k [killed [new [Hrun [_ [_ [_ [_ [_ [_ Hfail]]]]]]]]]]].
  destruct b; [exists new; exact Hrun|].
  exfalso. destruct (Hfail eq_refl) as [h [sig [e [He Hne]]]].
  destruct (Hcoop h (pid info) sig) as [Hnone | [msg Hmsg]].
  - congruence.
  - rewrite Hmsg in He. injection He as <-. apply (Hne msg). reflexivity.
Qed.

(** X8 - When no signal is ever refused (every [os.kill] returns or finds no
    process), [stop_server] on a recorded name returns [True] and leaves the
    table without exactly that name. *)
Theorem stop_server_succeeds env n w info :
  signals_never_refused env ->
  Dict.get n (entries_of (registry w)) = Some info ->
  fst (stop_server env n w) = Ret true
  /\ registry (snd (stop_server env n w)) = Parsed (Dict.del n (entries_of (registry w)))
  /\ Dict.get n (entries_of (registry (snd (stop_server env n w)))) = None.
Proof.
  intros Hcoop Hg. destruct w as [[| |d] t]; cbn [registry entries_of] in *;
    try discriminate Hg.
  destruct (stop_server_run_unrefused env n d info t Hcoop Hg) as [new Hrun].
  rewrite Hrun. cbn [fst snd registry entries_of].
  split; [reflexivity|]. split; [reflexivity | apply get_del_same].
Qed.

Lemma never_dies_never_refused files rc : signals_never_refused (sample_env files rc never_dies).
Proof. intros h p sig. left. reflexivity. Defined.

Lemma stop_server_succeeds_witness :
  fst (stop_server (sample_env [] None never_dies) "figma-mcp"
                   {| registry := Parsed two_servers; trace := [] |}) = Ret true
  /\ registry (snd (stop_server (sample_env [] None never_dies) "figma-mcp"
                                {| registry := Parsed two_servers; trace := [] |}))
     = Parsed [("a-server", {| pid := 7; started_at := "2025-01-01 09:00:00" |})]
  /\ Dict.get "figma-mcp"
       (entries_of (registry (snd (stop_server (sample_env [] None never_dies) "figma-mcp"
                                     {| registry := Parsed two_servers; trace := [] |}))))
     = None.
Proof.
  exact (stop_server_succeeds (sample_env [] None never_dies) "figma-mcp"
           {| registry := Parsed two_servers; trace := [] |}
           {| pid := 9; started_at := "2025-01-01 10:00:00" |}
           (never_dies_never_refused [] None) eq_refl).
Defined.

(** ** [stop_all] *)

Lemma without_keys d : without (Dict.keys d) d = [].
Proof.
  unfold without.
  assert (H : forall names, incl (Dict.keys d) names ->
                            filter (fun kv => negb (existsb (String.eqb (fst kv)) names)) d = []).
  { induction d as [|[k v] d IH]; intros names Hincl; cbn [filter fst]; [reflexivity|].
    assert (Hk : existsb (String.eqb k) names = true).
    { apply existsb_eqb_In. apply Hincl. left. reflexivity. }
    rewrite Hk. cbn [negb]. apply IH. intros x Hx. apply Hincl. right. exact Hx. }
  apply H. apply incl_refl.
Qed.


Lemma stop_each_unrefused env :
  signals_never_refused env ->
  forall servers d count t,
    NoDup servers ->
    (forall s, In s servers -> Dict.get s d <> None) ->
    exists new,
      stop_each env servers count {| registry := Parsed d; trace := t |}
      = (Ret (count + length servers)%nat,
         {| registry := Parsed (without servers d); trace := t ++ new |}).
Proof.
  intros Hcoop. induction servers as [|s rest IH]; intros d count t Hnd Hin.
  - exists []. cbn [stop_each]. run. rewrite without_nil, app_nil_r, Nat.add_0_r. reflexivity.
  - cbn [stop_each]. run.
    destruct (Dict.get s d) as [info|] eqn:Hg;
      [|exfalso; apply (Hin s (or_introl eq_refl)); exact Hg].
    destruct (stop_server_run_unrefused env s d info
                (t ++ [EvPrint (PyStr.nl ++ "Stopping " ++ s ++ "...")]) Hcoop Hg)
      as [new1 Hrun].
    rewrite Hrun. inversion Hnd as [|? ? Hnotin Hnd']; subst.
    destruct (IH (Dict.del s d) (S count)
                 ((t ++ [EvPrint (PyStr.nl ++ "Stopping " ++ s ++ "...")]) ++ new1) Hnd')
      as [new2 Hrest].
    { intros s' Hs'. rewrite get_del_other; [apply Hin; right; exact Hs'|].
      intros ->. contradiction. }
    rewrite Hrest. eexists. rewrite without_cons, <- ?app_assoc. cbn [length].
    replace (count + S (length rest))%nat with (S count + length rest)%nat by lia.
    reflexivity.
Qed.

Lemma keys_get d s : In s (Dict.keys d) -> Dict.get s d <> None.
Proof.
  induction d as [|[k v] d IH]; cbn [Dict.keys map fst In Dict.get]; [contradiction|].
  intros [<- | H]; [rewrite String.eqb_refl; discriminate|].
  destruct (k =? s); [discriminate | apply IH, H].
Qed.


(** X10 - When no signal is ever refused, [stop_all] on a parsed table
    empties it, counts every entry as stopped, and a following [list_running]
    prints "No running servers found". *)
Theorem stop_all_then_list_running env w d :
  signals_never_refused env ->
  registry w = Parsed d ->
  Dict.wf d ->
  fst (stop_all env w) = Ret tt
  /\ registry (snd (stop_all env w)) = Parsed []
  /\ printed (events_of (list_running env) (snd (stop_all env w)))
     = ["No running servers found"]
  /\ (d <> [] ->
      exists out,
        printed (events_of (stop_all env) w)
        = out ++ [stop_all_summary (length d) (length d)]).
Proof.
  intros Hcoop Hr Hwf. destruct w as [f t]. cbn [registry] in Hr. subst f.
  assert (Hlist : forall t', printed (events_of (list_running env)
                                        {| registry := Parsed []; trace := t' |})
                             = ["No running servers found"]).
  { intros t'. unfold events_of, list_running. run.
    rewrite path_present_processes_file. run.
    rewrite <- ?app_assoc, skipn_length_app. reflexivity. }
  unfold events_of at 2. unfold stop_all. run. rewrite path_present_processes_file. run.
  destruct d as [|kv d'] eqn:Hd.
  - run. rewrite Hlist. repeat split; try reflexivity. intros H; contradiction.
  - rewrite <- Hd in *.
    match goal with
    | |- context [stop_each env (Dict.keys d) 0 {| registry := _; trace := ?t1 |}] =>
        destruct (stop_each_unrefused env Hcoop (Dict.keys d) d 0%nat t1 Hwf (keys_get d))
          as [new Hrun]
    end.
    rewrite Hrun. run. rewrite without_keys. cbn [Nat.add].
    rewrite Hlist. rewrite <- ?app_assoc, skipn_length_app. tally.
    split; [reflexivity|]. split; [reflexivity|]. split; [reflexivity|].
    intros _. unfold Dict.keys. rewrite length_map.
    match goal with |- exists out, ?x :: ?l ++ _ = _ => exists (x :: l) end. reflexivity.
Qed.

Lemma stop_all_then_list_running_witness :
  fst (stop_all (sample_env [] None never_dies)
                {| registry := Parsed two_servers; trace := [] |}) = Ret tt
  /\ registry (snd (stop_all (sample_env [] None never_dies)
                             {| registry := Parsed two_servers; trace := [] |})) = Parsed []
  /\ printed (events_of (list_running (sample_env [] None never_dies))
                        (snd (stop_all (sample_env [] None never_dies)
                                       {| registry := Parsed two_servers; trace := [] |})))
     = ["No running servers found"].
Proof.
  assert (Hwf : Dict.wf two_servers).
  { unfold Dict.wf, two_servers. cbn [Dict.keys map fst].
    repeat constructor; cbn [In]; intros H; repeat destruct H as [H | H]; try discriminate H;
      exact H. }
  destruct (stop_all_then_list_running (sample_env [] None never_dies)
              {| registry := Parsed two_servers; trace := [] |} two_servers
              (never_dies_never_refused [] None) eq_refl Hwf) as [H1 [H2 [H3 _]]].
  auto.
Defined.

(** ** What [start_server] does, whatever the operating system answers *)

Ltac in_cases H :=
  cbn [In] in H;
  repeat match goal with H' : _ \/ _ |- _ => destruct H' as [H' | H'] end;
  try discriminate; try contradiction.

Lemma start_server_profile env n w :
  let sp := PyStr.path_join MCP_DIR n in
  let res := start_server env n w in
  let ev := events_of (start_server env n) w in
  (fst res = Ret true <-> exists p, In (EvPoll p None) ev)
  /\ (forall p, In (EvPoll p None) ev ->
                exists now,
                  registry (snd res)
                  = Parsed (Dict.set n {| pid := p; started_at := now |}
                                     (entries_of (registry w)))
                  /\ In ("Server " ++ n ++ " started with PID " ++ PyStr.of_Z p)%string
                        (printed ev))
  /\ (length (popens ev) <= 1)%nat
  /\ signals ev = []
  /\ (slept ev <= 2)%nat
  /\ (length (writes ev) <= 1)%nat
  /\ (forall e, fst res = Raise e <->
                path_present env (registry w) sp = true
                /\ fs_makedirs env (PyStr.path_join MCP_DIR "logs") = Some e)
  /\ (popens ev = [] ->
      registry (snd res) = registry w /\ writes ev = [] /\ slept ev = 0%nat)
  /\ (forall argv cwd out err e,
         In (EvPopen argv cwd out err (Raise e)) ev ->
         fst res = Ret false
         /\ registry (snd res) = registry w
         /\ In ("Error starting server " ++ n ++ ": " ++ exn_msg e)%string (printed ev)).
Proof.
  intros sp res ev. subst sp res ev. destruct w as [f t]. unfold events_of.
  remember (start_server env n {| registry := f; trace := t |}) as res eqn:Hrun.
  revert Hrun.
  unfold start_server, save_process_info, python_entry_points, next_existing.
  cbn [registry trace].
  start_cases.
  all: conclude_run.
  all: cbv [popens writes printed flat_map app length slept signals Nat.add].
  all: split; [split; [intros H; try discriminate H; eexists; cbn [In]; auto 30
                      | intros [p H]; in_cases H; reflexivity]|].
  all: split; [intros p H; in_cases H; injection H as <-; eexists;
               (split; [reflexivity | cbn [In]; auto 30])|].
  all: split; [lia|]. all: split; [reflexivity|]. all: split; [lia|]. all: split; [lia|].
  all: split; [intros e0; split;
               [intros H; try discriminate H; injection H as <-; split; reflexivity
               | intros [H1 H2]; try discriminate H1; try discriminate H2;
                 injection H2 as <-; reflexivity]|].
  all: split; [intros H; try discriminate H; repeat split; reflexivity|].
  all: intros argv cwd out err e0 H; in_cases H; injection H as <- <- <- <- <-;
    (split; [reflexivity | split; [reflexivity | cbn [In]; auto 30]]).
Qed.


(** X12 - Whatever the operating system answers, [start_server] spawns at most
    one process, sends no signal, sleeps at most the 2 seconds of the settle
    delay and writes the registry file at most once; when it spawns nothing it
    neither sleeps nor touches the registry file. *)
Theorem start_server_effects env n w :
  (length (popens (events_of (start_server env n) w)) <= 1)%nat
  /\ signals (events_of (start_server env n) w) = []
  /\ (slept (events_of (start_server env n) w) <= 2)%nat
  /\ (length (writes (events_of (start_server env n) w)) <= 1)%nat
  /\ (popens (events_of (start_server env n) w) = [] ->
      registry (snd (start_server env n w)) = registry w
      /\ writes (events_of (start_server env n) w) = []
      /\ slept (events_of (start_server env n) w) = 0%nat).
Proof.
  pose proof (start_server_profile env n w) as H. cbv zeta in H.
  destruct H as [_ [_ [H3 [H4 [H5 [H6 [_ [H8 _]]]]]]]]. auto.
Qed.

(** X13 - The only exception that escapes [start_server] is that of
    [os.makedirs] on the log directory, which is called outside the [try].
    When [Popen] raises (the interpreter is not installed, say), the exception
    is caught: its message is printed, [False] is returned and the registry
    file is left as it was. *)
Theorem start_server_exceptions env n w :
  (forall e,
      fst (start_server env n w) = Raise e
      <-> path_present env (registry w) (PyStr.path_join MCP_DIR n) = true
          /\ fs_makedirs env (PyStr.path_join MCP_DIR "logs") = Some e)
  /\ (forall argv cwd out err e,
         In (EvPopen argv cwd out err (Raise e)) (events_of (start_server env n) w) ->
         fst (start_server env n w) = Ret false
         /\ registry (snd (start_server env n w)) = registry w
         /\ In ("Error starting server " ++ n ++ ": " ++ exn_msg e)%string
               (printed (events_of (start_server env n) w))).
Proof.
  pose proof (start_server_profile env n w) as H. cbv zeta in H.
  destruct H as [_ [_ [_ [_ [_ [_ [H7 [_ H9]]]]]]]]. split; assumption.
Qed.

(** ** [main] *)


(** ** Commands that only look *)

Section Emits.

Variable env : os_env.
Variable P : event -> bool.

Lemma emits_ret {A} (a : A) : emits P (ret a).
Proof. intros w. exists []. cbn. rewrite app_nil_r. auto. Qed.

Lemma emits_raise {A} (e : exn) : emits P (@raise A e).
Proof. intros w. exists []. cbn. rewrite app_nil_r. auto. Qed.

Lemma emits_bind {A B} (m : M A) (f : A -> M B) :
  emits P m -> (forall a, emits P (f a)) -> emits P (bind m f).
Proof.
  intros Hm Hf w. unfold bind.
  destruct (Hm w) as [new1 [E1 F1]].
  destruct (m w) as [[a | e] w1]; cbn [snd] in E1.
  - destruct (Hf a w1) as [new2 [E2 F2]].
    exists (new1 ++ new2). rewrite E2, E1, app_assoc, forallb_app, F1, F2. auto.
  - exists new1. auto.
Qed.

Lemma emits_catch {A} (m : M A) (h : exn -> M A) :
  emits P m -> (forall e, emits P (h e)) -> emits P (catch m h).
Proof.
  intros Hm Hh w. unfold catch.
  destruct (Hm w) as [new1 [E1 F1]].
  destruct (m w) as [[a | e] w1]; cbn [snd] in E1.
  - exists new1. auto.
  - destruct (Hh e w1) as [new2 [E2 F2]].
    exists (new1 ++ new2). rewrite E2, E1, app_assoc, forallb_app, F1, F2. auto.
Qed.

Lemma emits_log {A} (r : world -> outcome A) (ev : world -> event) :
  (forall w, P (ev w) = true) -> emits P (fun w => (r w, log (ev w) w)).
Proof.
  intros Hev w. exists [ev w]. split; [reflexivity|]. cbn [forallb]. rewrite Hev. reflexivity.
Qed.

Lemma emits_json_load : emits P json_load.
Proof. intros w. exists []. cbn. rewrite app_nil_r. auto. Qed.

End Emits.

Create HintDb emits.

Section ProbeOnly.

Variable env : os_env.

Lemma probe_only_print line : emits probe_only (print line).
Proof. apply (emits_log probe_only (fun _ => Ret tt) (fun _ => EvPrint line)). reflexivity. Qed.

Lemma probe_only_os_path_exists p : emits probe_only (os_path_exists env p).
Proof.
  apply (emits_log probe_only (fun w => Ret (path_present env (registry w) p))
                   (fun w => EvExists p (path_present env (registry w) p))).
  reflexivity.
Qed.

Lemma probe_only_os_path_isdir p : emits probe_only (os_path_isdir env p).
Proof.
  apply (emits_log probe_only (fun _ => Ret (fs_isdir env p))
                   (fun _ => EvIsdir p (fs_isdir env p))).
  reflexivity.
Qed.

Lemma probe_only_os_listdir p : emits probe_only (os_listdir env p).
Proof.
  apply (emits_log probe_only (fun _ => fs_listdir env p) (fun _ => EvListdir p)).
  reflexivity.
Qed.

Lemma probe_only_os_kill0 p : emits probe_only (os_kill env p SIG0).
Proof.
  apply (emits_log probe_only
           (fun w => match proc_kill env (trace w) p SIG0 with
                     | None => Ret tt | Some e => Raise e end)
           (fun w => EvKill p SIG0 (proc_kill env (trace w) p SIG0))).
  reflexivity.
Qed.

Lemma probe_only_json_dump d : emits probe_only (json_dump d).
Proof. intros w. exists [EvDump d]. auto. Qed.

#[local] Hint Resolve emits_ret emits_raise emits_json_load probe_only_print
  probe_only_os_path_exists probe_only_os_path_isdir probe_only_os_listdir
  probe_only_os_kill0 probe_only_json_dump : emits.

Ltac emits_step :=
  first
    [ apply emits_bind; [|intros ?]
    | apply emits_catch; [|intros ?]
    | solve [auto with emits]
    | match goal with
      | |- emits _ (if ?b then _ else _) => destruct b
      | |- emits _ (match ?x with _ => _ end) => destruct x
      end ].

Lemma probe_only_remove_process_info n : emits probe_only (remove_process_info env n).
Proof. unfold remove_process_info. repeat emits_step. Qed.

Lemma probe_only_server_dirs all_dirs : emits probe_only (server_dirs env all_dirs).
Proof. induction all_dirs as [|d rest IH]; cbn [server_dirs]; repeat emits_step. Qed.

Lemma probe_only_report_servers running servers :
  emits probe_only (report_servers env running servers).
Proof. induction servers as [|server rest IH]; cbn [report_servers]; repeat emits_step. Qed.

Lemma probe_only_report_running items : emits probe_only (report_running env items).
Proof.
  induction items as [|[server info] rest IH]; cbn [report_running]; repeat emits_step.
Qed.

Lemma probe_only_collect_stale items : forall stale, emits probe_only (collect_stale env items stale).
Proof.
  induction items as [|[server info] rest IH]; intros stale; cbn [collect_stale];
    repeat emits_step.
Qed.

#[local] Hint Resolve probe_only_remove_process_info : emits.

Lemma probe_only_remove_each processes stale :
  emits probe_only (remove_each env processes stale).
Proof.
  induction stale as [|server rest IH]; cbn [remove_each]; repeat emits_step.
Qed.

#[local] Hint Resolve probe_only_server_dirs probe_only_report_servers
  probe_only_report_running probe_only_collect_stale probe_only_remove_each : emits.

Lemma probe_only_list_servers : emits probe_only (list_servers env).
Proof. unfold list_servers. repeat emits_step. Qed.

Lemma probe_only_list_running : emits probe_only (list_running env).
Proof. unfold list_running. repeat emits_step. Qed.

Lemma probe_only_clean_stale : emits probe_only (clean_stale env).
Proof. unfold clean_stale, clean_stale_body. repeat emits_step. Qed.

End ProbeOnly.

Lemma probe_only_measures new :
  forallb probe_only new = true ->
  slept new = 0%nat /\ popens new = []
  /\ Forall (fun ps => snd ps = SIG0) (signals new).
Proof.
  induction new as [|e new IH]; cbn [forallb]; intros H.
  - repeat split; constructor.
  - apply andb_true_iff in H. destruct H as [He H]. destruct (IH H) as [Hs [Hp Hk]].
    destruct e; try discriminate He; cbn [slept signals];
      change (popens (?x :: new)) with (popens [x] ++ popens new);
      cbv [popens flat_map app] in *; fold (popens new) in *;
      repeat split; try assumption.
    destruct sig; try discriminate He. constructor; [reflexivity | assumption].
Qed.

(** X15 - The commands [list], [running] and [clean] only look at processes:
    whatever the operating system answers they send no signal but signal 0,
    never sleep and never spawn. *)
Theorem lookers_only_probe env w cmd :
  In cmd [CmdList; CmdRunning; CmdClean] ->
  slept (events_of (main env cmd) w) = 0%nat
  /\ popens (events_of (main env cmd) w) = []
  /\ Forall (fun ps => snd ps = SIG0) (signals (events_of (main env cmd) w)).
Proof.
  intros Hcmd.
  assert (He : emits probe_only (main env cmd)).
  { cbn [In] in Hcmd. destruct Hcmd as [<- | [<- | [<- | []]]]; cbn [main].
    - apply probe_only_list_servers.
    - apply probe_only_list_running.
    - apply probe_only_clean_stale. }
  destruct (He w) as [new [E F]]. unfold events_of. rewrite E, skipn_length_app.
  apply probe_only_measures, F.
Qed.

Lemma lookers_only_probe_witness :
  slept (events_of (main (sample_env [] None probe_only_7) CmdClean)
                   {| registry := Parsed two_servers; trace := [] |}) = 0%nat
  /\ popens (events_of (main (sample_env [] None probe_only_7) CmdClean)
                       {| registry := Parsed two_servers; trace := [] |}) = []
  /\ Forall (fun ps => snd ps = SIG0)
            (signals (events_of (main (sample_env [] None probe_only_7) CmdClean)
                                {| registry := Parsed two_servers; trace := [] |})).
Proof.
  apply (lookers_only_probe (sample_env [] None probe_only_7)
           {| registry := Parsed two_servers; trace := [] |} CmdClean).
  cbn [In]. auto.
Defined.

(** ** What the listings print *)

Lemma insert_sorted_perm s l : Permutation (PyStr.insert_sorted s l) (s :: l).
Proof.
  induction l as [|x l IH]; cbn [PyStr.insert_sorted]; [reflexivity|].
  destruct (String.leb s x); [reflexivity|].
  rewrite IH. apply perm_swap.
Qed.

Lemma insert_sorted_sorted s l :
  Sorted (fun a b => String.leb a b = true) l ->
  Sorted (fun a b => String.leb a b = true) (PyStr.insert_sorted s l).
Proof.
  induction l as [|x l IH]; cbn [PyStr.insert_sorted]; intros Hs.
  - repeat constructor.
  - destruct (String.leb s x) eqn:E.
    + constructor; [exact Hs | constructor; exact E].
    + inversion Hs as [|? ? Hs' Hhd]; subst.
      constructor; [apply IH, Hs'|].
      assert (Hxs : String.leb x s = true).
      { destruct (String.leb_total s x) as [H | H]; [congruence | exact H]. }
      destruct l as [|y l]; cbn [PyStr.insert_sorted].
      * constructor. exact Hxs.
      * destruct (String.leb s y); constructor; [exact Hxs|].
        inversion Hhd; assumption.
Qed.

Lemma insert_item_perm kv l : Permutation (Dict.insert_item kv l) (kv :: l).
Proof.
  induction l as [|x l IH]; cbn [Dict.insert_item]; [reflexivity|].
  destruct (String.leb (fst kv) (fst x)); [reflexivity|].
  rewrite IH. apply perm_swap.
Qed.

Lemma insert_item_sorted kv l :
  Sorted (fun a b => String.leb (fst a) (fst b) = true) l ->
  Sorted (fun a b => String.leb (fst a) (fst b) = true) (Dict.insert_item kv l).
Proof.
  induction l as [|x l IH]; cbn [Dict.insert_item]; intros Hs.
  - repeat constructor.
  - destruct (String.leb (fst kv) (fst x)) eqn:E.
    + constructor; [exact Hs | constructor; exact E].
    + inversion Hs as [|? ? Hs' Hhd]; subst.
      constructor; [apply IH, Hs'|].
      assert (Hxs : String.leb (fst x) (fst kv) = true).
      { destruct (String.leb_total (fst kv) (fst x)) as [H | H]; [congruence | exact H]. }
      destruct l as [|y l]; cbn [Dict.insert_item].
      * constructor. exact Hxs.
      * destruct (String.leb (fst kv) (fst y)); constructor; [exact Hxs|].
        inversion Hhd; assumption.
Qed.

(** X19 - [sorted(servers)] of [list_servers] and [sorted(processes.items())]
    of [list_running] list every element once, in nondecreasing order of the
    names. *)
Theorem listings_sorted (servers : list string) (d : dict) :
  Permutation (PyStr.sorted servers) servers
  /\ Sorted (fun a b => String.leb a b = true) (PyStr.sorted servers)
  /\ Permutation (Dict.sorted_items d) d
  /\ Sorted (fun a b => String.leb (fst a) (fst b) = true) (Dict.sorted_items d).
Proof.
  split; [|split; [|split]].
  - induction servers as [|s l IH]; cbn; [reflexivity|].
    rewrite insert_sorted_perm. constructor. exact IH.
  - induction servers as [|s l IH]; cbn; [constructor|].
    apply insert_sorted_sorted, IH.
  - induction d as [|kv l IH]; cbn; [reflexivity|].
    rewrite insert_item_perm. constructor. exact IH.
  - induction d as [|kv l IH]; cbn; [constructor|].
    apply insert_item_sorted, IH.
Qed.

Section Reports.

Variable env : os_env.
Variable alive : Z -> bool.
Hypothesis Horacle : liveness_oracle env alive.




End Reports.



(** X18 - When [MCP_DIR] cannot be listed, the exception of [os.listdir]
    escapes [list_servers]: nothing is printed, the registry is not read. *)
Theorem list_servers_listdir_fails env w e :
  fs_listdir env MCP_DIR = Raise e ->
  list_servers env w
  = (Raise e, {| registry := registry w; trace := trace w ++ [EvListdir MCP_DIR] |}).
Proof.
  intros Hls. destruct w as [f t]. unfold list_servers. run. rewrite Hls. reflexivity.
Qed.




Lemma list_servers_listdir_fails_witness :
  list_servers no_mcp_dir_env {| registry := Parsed two_servers; trace := [] |}
  = (Raise (OSError "[Errno 2] No such file or directory"),
     {| registry := Parsed two_servers; trace := [EvListdir MCP_DIR] |}).
Proof.
  exact (list_servers_listdir_fails no_mcp_dir_env
           {| registry := Parsed two_servers; trace := [] |}
           (OSError "[Errno 2] No such file or directory") eq_refl).
Defined.

(** ** What [clean_stale] probes and writes *)

Section CleanStaleEffects.

Variable env : os_env.
Variable alive : Z -> bool.
Hypothesis Horacle : liveness_oracle env alive.

Lemma collect_stale_probes f :
  forall items acc t,
  exists new,
    collect_stale env items acc {| registry := f; trace := t |}
    = (Ret (acc ++ stale_names alive items), {| registry := f; trace := t ++ new |})
    /\ signals new = map (fun kv => (pid (snd kv), SIG0)) items
    /\ writes new = [].
Proof.
  induction items as [|[server info] rest IH]; intros acc t.
  - exists []. cbn [collect_stale]. unfold stale_names. cbn [filter Dict.keys map].
    run. rewrite !app_nil_r. repeat split; reflexivity.
  - cbn [collect_stale]. run.
    pose proof (Horacle t (pid info)) as Hp.
    unfold stale_names. cbn [filter snd map].
    destruct (alive (pid info)).
    + rewrite Hp. run.
      destruct (IH acc (t ++ [EvKill (pid info) SIG0 None])) as [new [Hrun [Hsig Hw]]].
      rewrite Hrun. eexists. rewrite <- ?app_assoc. split; [reflexivity|].
      tally. rewrite Hsig, Hw. split; reflexivity.
    + destruct Hp as [e [Hp He]]. rewrite Hp. run.
      destruct e; try discriminate He; run;
        match goal with
        | |- context [collect_stale env rest ?acc' {| registry := f; trace := ?t1 |}] =>
            destruct (IH acc' t1) as [new [Hrun [Hsig Hw]]]
        end;
        rewrite Hrun; eexists; rewrite <- ?app_assoc;
        (split; [unfold stale_names; cbn [negb Dict.keys map fst]; reflexivity|]);
        tally; rewrite Hsig, Hw; split; reflexivity.
Qed.

Lemma remove_each_writes processes :
  forall stale d t,
    (forall s, In s stale -> Dict.get s processes <> None) ->
    exists new,
      remove_each env processes stale {| registry := Parsed d; trace := t |}
      = (Ret tt, {| registry := Parsed (without stale d); trace := t ++ new |})
      /\ signals new = []
      /\ length (writes new) = length stale.
Proof.
  induction stale as [|s rest IH]; intros d t Hin.
  - exists []. cbn [remove_each]. run. rewrite without_nil, app_nil_r. repeat split; reflexivity.
  - cbn [remove_each].
    destruct (Dict.get s processes) as [info|] eqn:Hg;
      [|exfalso; apply (Hin s (or_introl eq_refl)); exact Hg].
    run. rewrite remove_process_info_parsed.
    match goal with
    | |- context [remove_each env processes rest {| registry := _; trace := ?t1 |}] =>
        destruct (IH (Dict.del s d) t1) as [new [Hrun [Hsig Hw]]]
    end.
    { intros s' Hs'. apply Hin. right. exact Hs'. }
    rewrite Hrun. eexists. rewrite without_cons, <- ?app_assoc. split; [reflexivity|].
    tally. rewrite Hsig. cbn [length app]. rewrite Hw. split; reflexivity.
Qed.

End CleanStaleEffects.

(** X20 - Under a fixed liveness oracle [clean_stale] on a parsed table
    probes every entry once with signal 0, in the order of the table, and
    rewrites the file once per stale entry; with no stale entry the file is
    not written and the table stays. *)
Theorem clean_stale_probes_and_writes env alive w d :
  liveness_oracle env alive ->
  registry w = Parsed d ->
  signals (events_of (clean_stale env) w) = map (fun kv => (pid (snd kv), SIG0)) d
  /\ length (writes (events_of (clean_stale env) w)) = length (stale_names alive d)
  /\ (stale_names alive d = [] -> registry (snd (clean_stale env w)) = Parsed d).
Proof.
  intros Horacle Hr. destruct w as [f t]. cbn [registry] in Hr. subst f.
  unfold events_of, clean_stale, clean_stale_body. run.
  rewrite path_present_processes_file. run.
  destruct d as [|kv d'] eqn:Hd.
  - run. rewrite <- ?app_assoc, skipn_length_app. repeat split; reflexivity.
  - rewrite <- Hd.
    match goal with
    | |- context [collect_stale env d [] {| registry := ?f; trace := ?t1 |}] =>
        destruct (collect_stale_probes env alive Horacle f d [] t1)
          as [new1 [Hrun1 [Hsig1 Hw1]]]
    end.
    rewrite Hrun1. cbn [app]. run.
    destruct (stale_names alive d) as [|s stale'] eqn:Hstale.
    + run. rewrite <- ?app_assoc, skipn_length_app. tally. rewrite Hsig1, Hw1.
      repeat split; reflexivity.
    + run.
      match goal with
      | |- context [remove_each env d _ {| registry := _; trace := ?t1 |}] =>
          destruct (remove_each_writes env d (s :: stale') d t1)
            as [new2 [Hrun2 [Hsig2 Hw2]]]
      end.
      { intros s0 Hs0. apply (stale_names_get alive). rewrite Hstale. exact Hs0. }
      rewrite Hrun2. run. rewrite <- ?app_assoc, skipn_length_app. tally.
      rewrite Hsig1, Hw1, Hsig2, app_nil_r. cbn [app]. rewrite Hw2.
      split; [reflexivity|]. split; [reflexivity|]. intros H; discriminate H.
Qed.

Lemma clean_stale_probes_and_writes_witness :
  signals (events_of (clean_stale (sample_env [] None probe_only_7))
                     {| registry := Parsed two_servers; trace := [] |})
  = [(7%Z, SIG0); (9%Z, SIG0)]
  /\ length (writes (events_of (clean_stale (sample_env [] None probe_only_7))
                               {| registry := Parsed two_servers; trace := [] |})) = 1%nat.
Proof.
  destruct (clean_stale_probes_and_writes
              (sample_env [] None probe_only_7) only_7_alive
              {| registry := Parsed two_servers; trace := [] |} two_servers
              probe_only_7_oracle eq_refl) as [H1 [H2 _]].
  split; [exact H1 | exact H2].
Defined.

(** ** [start_server] on a missing directory *)

(** X14 - When the server directory does not exist, [start_server] prints
    "Error: Server n not found" and returns [False]: no log directory is made,
    nothing is spawned, the registry is untouched. *)
Theorem start_server_missing_directory env n w :
  path_present env (registry w) (PyStr.path_join MCP_DIR n) = false ->
  start_server env n w =
  (Ret false,
   {| registry := registry w;
      trace := trace w ++ [EvExists (PyStr.path_join MCP_DIR n) false;
                           EvPrint ("Error: Server " ++ n ++ " not found")] |}).
Proof.
  intros H. destruct w as [f t]. cbn [registry trace] in *.
  unfold start_server. run. rewrite H. run. rewrite <- ?app_assoc. reflexivity.
Qed.

Lemma start_server_missing_directory_witness :
  start_server no_mcp_dir_env "figma-mcp" {| registry := Parsed two_servers; trace := [] |} =
  (Ret false,
   {| registry := Parsed two_servers;
      trace := [EvExists "/Users/kinglerbercy/MCP/figma-mcp" false;
                EvPrint "Error: Server figma-mcp not found"] |}).
Proof.
  apply (start_server_missing_directory no_mcp_dir_env "figma-mcp"
           {| registry := Parsed two_servers; trace := [] |}).
  reflexivity.
Defined.
